(** * The chat backend: conversations, versions, messages, summaries, uploads

    A shallow embedding of the Django application under [backend/chat]
    ([models.py], [signals.py], [summary_service.py], [serializers.py],
    [tasks.py], [management/commands/cleanup_conversations.py]).

    Conventions of the embedding.
    - A model class is a record; a table is a finite map from primary key to
      row.  A foreign key is the primary key of the row it refers to, and
      following it ([self.version], [version.conversation], [msg.role]) is a
      lookup in the table at the time of the access.
    - A UUID is its canonical text, a timestamp is a number of seconds.
    - A Python function that touches the database, the cache or the clock is
      a function [World -> World * result A]: Django runs in autocommit mode,
      so what was written before an exception is raised stays written.
    - A value drawn at run time ([uuid.uuid4()]) is an argument of the
      operation that draws it. *)

From Stdlib Require Import ZArith QArith String Ascii List Lia.
From stdpp Require Import base option list sorting gmap strings pretty
  fin_maps fin_sets.

Open Scope string_scope.
Open Scope Z_scope.

Abbreviation UUID := string (only parsing).
Abbreviation datetime := Z (only parsing).

(** ** Python exceptions and results *)

Inductive exn : Type :=
| AttributeError (cls attr : string)
| DoesNotExist (model : string)
| IntegrityError (constraint : string)
| DatabaseError (msg : string)
| ValidationError (msg : string)            (* django.core.exceptions *)
| SerializerValidationError (msg : string)  (* rest_framework.serializers *)
| OpenAIError (msg : string)                (* openai.error.OpenAIError *)
| IndexError (msg : string)
| RuntimeError (msg : string).              (* any other Exception *)

Inductive result (A : Type) : Type :=
| Ok (a : A)
| Raise (e : exn).
Arguments Ok {A} a.
Arguments Raise {A} e.

Definition is_ok {A} (r : result A) : bool :=
  match r with Ok _ => true | Raise _ => false end.

(** ** models.py *)

Module Role.
Record t : Type := mk { id : Z; name : string }.
End Role.

Module Conversation.
Record t : Type := mk {
  id : UUID;
  title : string;
  created_at : datetime;
  modified_at : datetime;
  active_version : option UUID;
  deleted_at : option datetime;
  user : Z;
  summary : option string;
  summary_generated_at : option datetime;
  is_summary_stale : bool
}.

Definition with_title (x : string) (c : t) : t :=
  mk (id c) x (created_at c) (modified_at c) (active_version c)
     (deleted_at c) (user c) (summary c) (summary_generated_at c)
     (is_summary_stale c).
Definition with_created_at (x : datetime) (c : t) : t :=
  mk (id c) (title c) x (modified_at c) (active_version c)
     (deleted_at c) (user c) (summary c) (summary_generated_at c)
     (is_summary_stale c).
Definition with_modified_at (x : datetime) (c : t) : t :=
  mk (id c) (title c) (created_at c) x (active_version c)
     (deleted_at c) (user c) (summary c) (summary_generated_at c)
     (is_summary_stale c).
Definition with_active_version (x : option UUID) (c : t) : t :=
  mk (id c) (title c) (created_at c) (modified_at c) x
     (deleted_at c) (user c) (summary c) (summary_generated_at c)
     (is_summary_stale c).
Definition with_summary (x : option string) (c : t) : t :=
  mk (id c) (title c) (created_at c) (modified_at c) (active_version c)
     (deleted_at c) (user c) x (summary_generated_at c)
     (is_summary_stale c).
Definition with_summary_generated_at (x : option datetime) (c : t) : t :=
  mk (id c) (title c) (created_at c) (modified_at c) (active_version c)
     (deleted_at c) (user c) (summary c) x (is_summary_stale c).
Definition with_is_summary_stale (x : bool) (c : t) : t :=
  mk (id c) (title c) (created_at c) (modified_at c) (active_version c)
     (deleted_at c) (user c) (summary c) (summary_generated_at c) x.

(** The attributes an instance answers to: the declared fields, the
    reverse accessors of the foreign keys that point here
    ([Version.conversation] with [related_name="versions"],
    [UploadedFile.conversation] with [related_name="files"]) and the
    method [version_count]. *)
Definition attributes : list string :=
  [ "id"; "title"; "created_at"; "modified_at"; "active_version";
    "deleted_at"; "user"; "summary"; "summary_generated_at";
    "is_summary_stale"; "versions"; "files"; "version_count" ].
End Conversation.

Module Version.
Record t : Type := mk {
  id : UUID;
  conversation : UUID;
  parent_version : option UUID;
  root_message : option UUID
}.

(** [messages] is the reverse accessor of [Message.version],
    [current_version_conversations] that of
    [Conversation.active_version], [version_set] that of
    [parent_version]. *)
Definition attributes : list string :=
  [ "id"; "conversation"; "parent_version"; "root_message"; "messages";
    "current_version_conversations"; "version_set" ].
End Version.

Module Message.
Record t : Type := mk {
  id : UUID;
  content : string;
  role : option Z;   (* an instance built without a role holds None *)
  created_at : datetime;
  version : UUID
}.

Definition with_content (x : string) (m : t) : t :=
  mk (id m) x (role m) (created_at m) (version m).
Definition with_role (x : option Z) (m : t) : t :=
  mk (id m) (content m) x (created_at m) (version m).
Definition with_created_at (x : datetime) (m : t) : t :=
  mk (id m) (content m) (role m) x (version m).

(** [root_message_versions] is the reverse accessor of
    [Version.root_message]. *)
Definition attributes : list string :=
  [ "id"; "content"; "role"; "created_at"; "version";
    "root_message_versions" ].
End Message.

(** An uploaded file object: its name and its bytes. *)
Record File : Type := mkFile { file_name : string; file_bytes : string }.

Module UploadedFile.
Record t : Type := mk {
  id : UUID;
  user : Z;
  conversation : option UUID;
  file : File;
  filename : string;
  file_size : Z;
  file_type : string;
  file_hash : string;
  status : string;
  uploaded_at : datetime;
  processed_at : option datetime;
  error_message : option string;
  mime_type : option string;
  page_count : option Z;
  is_indexed : bool
}.

Definition with_file_hash (x : string) (f : t) : t :=
  mk (id f) (user f) (conversation f) (file f) (filename f) (file_size f)
     (file_type f) x (status f) (uploaded_at f) (processed_at f)
     (error_message f) (mime_type f) (page_count f) (is_indexed f).
Definition with_uploaded_at (x : datetime) (f : t) : t :=
  mk (id f) (user f) (conversation f) (file f) (filename f) (file_size f)
     (file_type f) (file_hash f) (status f) x (processed_at f)
     (error_message f) (mime_type f) (page_count f) (is_indexed f).
Definition with_conversation (x : option UUID) (f : t) : t :=
  mk (id f) (user f) x (file f) (filename f) (file_size f)
     (file_type f) (file_hash f) (status f) (uploaded_at f) (processed_at f)
     (error_message f) (mime_type f) (page_count f) (is_indexed f).
End UploadedFile.

(** ** The world the application runs in

    The tables of the database, the users of the [authentication] app (primary
    key to user name), the cache of [django.core.cache] (value and expiry
    time), the clock read by [now()] and the lines written to standard
    output. *)

Record World : Type := mkWorld {
  roles : gmap Z Role.t;
  users : gmap Z string;
  conversations : gmap string Conversation.t;
  versions : gmap string Version.t;
  messages : gmap string Message.t;
  uploaded_files : gmap string UploadedFile.t;
  cache : gmap string (string * Z);
  clock : datetime;
  stdout : list string
}.

Definition set_conversations (x : gmap string Conversation.t) (w : World) :=
  mkWorld (roles w) (users w) x (versions w) (messages w) (uploaded_files w)
          (cache w) (clock w) (stdout w).
Definition set_versions (x : gmap string Version.t) (w : World) :=
  mkWorld (roles w) (users w) (conversations w) x (messages w)
          (uploaded_files w) (cache w) (clock w) (stdout w).
Definition set_messages (x : gmap string Message.t) (w : World) :=
  mkWorld (roles w) (users w) (conversations w) (versions w) x
          (uploaded_files w) (cache w) (clock w) (stdout w).
Definition set_uploaded_files (x : gmap string UploadedFile.t) (w : World) :=
  mkWorld (roles w) (users w) (conversations w) (versions w) (messages w) x
          (cache w) (clock w) (stdout w).
Definition set_cache (x : gmap string (string * Z)) (w : World) :=
  mkWorld (roles w) (users w) (conversations w) (versions w) (messages w)
          (uploaded_files w) x (clock w) (stdout w).
Definition set_clock (x : datetime) (w : World) :=
  mkWorld (roles w) (users w) (conversations w) (versions w) (messages w)
          (uploaded_files w) (cache w) x (stdout w).
Definition set_stdout (x : list string) (w : World) :=
  mkWorld (roles w) (users w) (conversations w) (versions w) (messages w)
          (uploaded_files w) (cache w) (clock w) x.

(** ** Effectful code: state that survives an exception *)

Definition M (A : Type) : Type := World -> World * result A.

Definition ret {A} (a : A) : M A := fun w => (w, Ok a).
Definition raise {A} (e : exn) : M A := fun w => (w, Raise e).
Definition bind {A B} (m : M A) (k : A -> M B) : M B :=
  fun w => match m w with
           | (w', Ok a) => k a w'
           | (w', Raise e) => (w', Raise e)
           end.

Notation "'let*' x ':=' m 'in' k" := (bind m (fun x => k))
  (at level 10, x pattern, m at level 100, k at level 200,
   format "'[v' 'let*'  x  ':='  m  'in' '/' k ']'").

(** [try: ... except Exception: ...] *)
Definition try_except {A} (body : M A) (handler : exn -> M A) : M A :=
  fun w => match body w with
           | (w', Ok a) => (w', Ok a)
           | (w', Raise e) => handler e w'
           end.

(** A query: it reads the world and does not change it. *)
Definition query {A} (q : World -> result A) : M A := fun w => (w, q w).
Definition modify (f : World -> World) : M unit := fun w => (f w, Ok tt).

Fixpoint for_each {A} (l : list A) (body : A -> M unit) : M unit :=
  match l with
  | [] => ret tt
  | x :: l' => let* _ := body x in for_each l' body
  end.

Fixpoint map_each {A B} (l : list A) (f : A -> result B) : result (list B) :=
  match l with
  | [] => Ok []
  | x :: l' =>
      match f x with
      | Raise e => Raise e
      | Ok y => match map_each l' f with
                | Raise e => Raise e
                | Ok ys => Ok (y :: ys)
                end
      end
  end.

(** [django.utils.timezone.now()] *)
Definition now : M datetime := query (fun w => Ok (clock w)).

(** ** Strings as Python uses them here *)

Definition newline : string := String "010"%char "".

(** [str.isspace] on the ASCII range. *)
Definition isspace (c : ascii) : bool :=
  let n := nat_of_ascii c in
  (Nat.leb 9 n && Nat.leb n 13) || (Nat.leb 28 n && Nat.leb n 32).

Fixpoint lstrip (s : string) : string :=
  match s with
  | EmptyString => EmptyString
  | String c s' => if isspace c then lstrip s' else s
  end.

Definition rstrip (s : string) : string := String.rev (lstrip (String.rev s)).

(** [s.strip()] *)
Definition strip (s : string) : string := rstrip (lstrip s).

Fixpoint lower (s : string) : string :=
  match s with
  | EmptyString => EmptyString
  | String c s' =>
      let n := nat_of_ascii c in
      String (if Nat.leb 65 n && Nat.leb n 90 then ascii_of_nat (n + 32) else c)
             (lower s')
  end.

(** Truth value of a [str] or [None]. *)
Definition truthy (s : option string) : bool :=
  match s with
  | None => false
  | Some s => negb (String.eqb s "")
  end.

(** ** The database layer *)

Definition fk_present {K V} `{Countable K} (tbl : gmap K V) (k : option K)
    : bool :=
  match k with
  | None => true
  | Some k => bool_decide (is_Some (tbl !! k))
  end.

Definition require (ok : bool) (e : exn) : M unit :=
  if ok then ret tt else raise e.

Definition Conversation_objects_get (id : UUID) : M Conversation.t :=
  query (fun w => match conversations w !! id with
                  | Some c => Ok c
                  | None => Raise (DoesNotExist "Conversation")
                  end).

Definition Version_objects_get (id : UUID) : M Version.t :=
  query (fun w => match versions w !! id with
                  | Some v => Ok v
                  | None => Raise (DoesNotExist "Version")
                  end).

(** [msg.role] followed to its row *)
Definition Role_objects_get (id : option Z) (w : World) : result Role.t :=
  match id with
  | None => Raise (AttributeError "NoneType" "name")
  | Some id =>
      match roles w !! id with
      | Some r => Ok r
      | None => Raise (DoesNotExist "Role")
      end
  end.

(** [cache.set(key, value, timeout)] and [cache.delete(key)] *)
Definition cache_set (key value : string) (timeout : Z) : M unit :=
  modify (fun w => set_cache (<[key := (value, clock w + timeout)]> (cache w)) w).

(** ** signals.py: the receiver of [post_save] for [Conversation] *)

(** [Conversation.objects.filter(id=...).update(is_summary_stale=True)] *)
Definition Conversation_objects_update_is_summary_stale (id : UUID) (x : bool)
    : M unit :=
  modify (fun w =>
    set_conversations (alter (Conversation.with_is_summary_stale x) id
                             (conversations w)) w).

Definition handle_conversation_save (instance : Conversation.t)
    (created : bool) : M Conversation.t :=
  if created then
    let instance := Conversation.with_is_summary_stale true instance in
    let* _ := Conversation_objects_update_is_summary_stale
                (Conversation.id instance) true in
    ret instance
  else ret instance.

(** Modelled from the spec: whether the receivers that [signals.py] declares
    with [@receiver(post_save, ...)] are connected.  The trigger protocol of
    the specification has them run on every save; the [apps.py] that imports
    [chat.signals] is not among the sources. *)
Definition signals_connected : bool := true.

(** [post_save.send(sender=Conversation, instance=..., created=...)] *)
Definition post_save_Conversation (instance : Conversation.t) (created : bool)
    : M Conversation.t :=
  if signals_connected then handle_conversation_save instance created
  else ret instance.

(** ** [Model.save] for [Conversation]

    [adding] is [instance._state.adding]: the primary key has a default, so
    an instance that was never saved is inserted, and one read from the
    database is updated (inserted if its row is gone).  [modified_at] has
    [auto_now], [created_at] has [auto_now_add]. *)
Definition Conversation_save (adding : bool) (self : Conversation.t)
    : M Conversation.t :=
  let* t := now in
  let* present := query (fun w =>
                    Ok (bool_decide (is_Some (conversations w !! Conversation.id self)))) in
  let created := adding || negb present in
  let self := Conversation.with_modified_at t
                (if created then Conversation.with_created_at t self else self) in
  let* _ := require (negb (adding && present))
                    (IntegrityError "chat_conversation.id") in
  let* user_ok := query (fun w =>
                    Ok (fk_present (users w) (Some (Conversation.user self)))) in
  let* _ := require user_ok (IntegrityError "chat_conversation.user_id") in
  let* version_ok := query (fun w =>
                    Ok (fk_present (versions w) (Conversation.active_version self))) in
  let* _ := require version_ok
                    (IntegrityError "chat_conversation.active_version_id") in
  let* _ := modify (fun w =>
              set_conversations (<[Conversation.id self := self]> (conversations w)) w) in
  post_save_Conversation self created.

(** [conversation.save(update_fields=[...])]: an UPDATE of the named columns
    of the stored row; [auto_now] applies only to a named column. *)
Definition assign_fields (fields : list string) (t : datetime)
    (self row : Conversation.t) : Conversation.t :=
  let pick {A} (name : string) (f : Conversation.t -> A) : A :=
    if bool_decide (name ∈ fields) then f self else f row in
  Conversation.mk
    (Conversation.id row)
    (pick "title" Conversation.title)
    (Conversation.created_at row)
    (if bool_decide ("modified_at" ∈ fields) then t
     else Conversation.modified_at row)
    (pick "active_version" Conversation.active_version)
    (pick "deleted_at" Conversation.deleted_at)
    (pick "user" Conversation.user)
    (pick "summary" Conversation.summary)
    (pick "summary_generated_at" Conversation.summary_generated_at)
    (pick "is_summary_stale" Conversation.is_summary_stale).

Definition Conversation_save_update_fields (fields : list string)
    (self : Conversation.t) : M Conversation.t :=
  let* t := now in
  let* row := query (fun w =>
      match conversations w !! Conversation.id self with
      | Some row => Ok row
      | None => Raise (DatabaseError
                  "Save with update_fields did not affect any rows.")
      end) in
  let* _ := modify (fun w =>
      set_conversations (<[Conversation.id self :=
                             assign_fields fields t self row]>
                           (conversations w)) w) in
  post_save_Conversation self false.

(** ** summary_service.py *)

(** The request and the response of [openai.ChatCompletion.create]. *)
Record ChatMessage : Type := mkChatMessage {
  chat_role : string;
  chat_content : string
}.

Record ChatRequest : Type := mkChatRequest {
  engine : string;
  request_messages : list ChatMessage;
  max_tokens : Z;
  temperature : Q
}.

(** [response['choices']]: for each choice its [['message']['content']],
    which the provider may leave [None]. *)
Abbreviation ChatResponse := (list (option string)) (only parsing).

Module ConversationSummaryService.
Definition MAX_TOKENS : Z := 200.
Definition SUMMARY_CACHE_TIMEOUT : Z := 3600.
Definition MIN_MESSAGES_FOR_SUMMARY : Z := 3.
End ConversationSummaryService.

(** [queryset.order_by('created_at')]; rows of the same time keep their
    order. *)
Fixpoint insert_by_created_at (m : Message.t) (l : list Message.t)
    : list Message.t :=
  match l with
  | [] => [m]
  | x :: l' =>
      if Message.created_at m <=? Message.created_at x then m :: l
      else x :: insert_by_created_at m l'
  end.

Definition order_by_created_at (l : list Message.t) : list Message.t :=
  foldr insert_by_created_at [] l.

(** [f"{'User' if msg.role.name == 'user' else 'Assistant'}: {msg.content[:200]}"] *)
Definition transcript_line (w : World) (msg : Message.t) : result string :=
  match Role_objects_get (Message.role msg) w with
  | Raise e => Raise e
  | Ok role =>
      Ok ((if String.eqb (Role.name role) "user" then "User" else "Assistant")
          +:+ ": " +:+ String.substring 0 200 (Message.content msg))
  end.

Definition transcript (w : World) (messages : list Message.t)
    : result string :=
  match map_each (take 10 messages) (transcript_line w) with
  | Raise e => Raise e
  | Ok lines => Ok (String.concat newline lines)
  end.

Definition summary_request (context : string) : ChatRequest :=
  {| engine := "gpt-35-turbo";
     request_messages :=
       [ mkChatMessage "system"
           "Provide a concise 2-3 sentence summary of the conversation.";
         mkChatMessage "user"
           ("Conversation to summarize:" +:+ newline +:+ newline +:+ context) ];
     max_tokens := ConversationSummaryService.MAX_TOKENS;
     temperature := (3 # 10)%Q |}.

(** [response['choices'][0]['message']['content'].strip()] *)
Definition first_choice_stripped (response : ChatResponse) : result string :=
  match response with
  | [] => Raise (IndexError "list index out of range")
  | None :: _ => Raise (AttributeError "NoneType" "strip")
  | Some content :: _ => Ok (strip content)
  end.

Definition summary_cache_key (conversation : Conversation.t) : string :=
  "conversation_summary_" +:+ Conversation.id conversation.

Section Chat.

(** The code is written against objects, not classes.  What an attribute
    access yields depends on the class of the object it is handed, and the
    provider behind [openai] is an outside service. *)

(** [instance.conversation] for the [instance] that [post_save] of
    [Message] passes *)
Variable instance_conversation :
  World -> Message.t -> result (option Conversation.t).

(** the rows behind the manager [conversation.messages] *)
Variable conversation_messages :
  World -> Conversation.t -> result (list Message.t).

(** [openai.ChatCompletion.create(engine=..., messages=..., ...)] *)
Variable ChatCompletion_create : ChatRequest -> result ChatResponse.

Definition generate_summary (conversation : Conversation.t)
    : M (option string) :=
  try_except
    (let* rows := query (fun w => conversation_messages w conversation) in
     let message_count := Z.of_nat (length rows) in
     if message_count <? ConversationSummaryService.MIN_MESSAGES_FOR_SUMMARY
     then ret None
     else
       let* rows := query (fun w => conversation_messages w conversation) in
       let messages := order_by_created_at rows in
       let* context := query (fun w => transcript w messages) in
       let* response := query (fun _ =>
                       ChatCompletion_create (summary_request context)) in
       let* summary := query (fun _ => first_choice_stripped response) in
       ret (Some summary))
    (fun e =>
       match e with
       | OpenAIError _ => ret None
       | _ => ret None
       end).

(** The instance is a Python object that the function mutates; the
    function here returns it next to the boolean. *)
Definition update_conversation_summary (conversation : Conversation.t)
    : M (Conversation.t * bool) :=
  try_except
    (let* summary := generate_summary conversation in
     if truthy summary then
       let* t := now in
       let conversation :=
         Conversation.with_is_summary_stale false
           (Conversation.with_summary_generated_at (Some t)
              (Conversation.with_summary summary conversation)) in
       try_except
         (let* _ := Conversation_save_update_fields
                      ["summary"; "summary_generated_at"; "is_summary_stale"]
                      conversation in
          let* _ := cache_set (summary_cache_key conversation)
                      (default "" summary)
                      ConversationSummaryService.SUMMARY_CACHE_TIMEOUT in
          ret (conversation, true))
         (fun _ => ret (conversation, false))
     else ret (conversation, false))
    (fun _ => ret (conversation, false)).



(** ** signals.py: the receiver of [post_save] for [Message] *)

Definition regenerate_summary_on_message_save (instance : Message.t)
    (created : bool) : M unit :=
  if created then
    let* conversation := query (fun w => instance_conversation w instance) in
    match conversation with
    | None => ret tt
    | Some conversation =>
        let* rows := query (fun w => conversation_messages w conversation) in
        if ConversationSummaryService.MIN_MESSAGES_FOR_SUMMARY
             <=? Z.of_nat (length rows)
        then let* _ := update_conversation_summary conversation in ret tt
        else ret tt
    end
  else ret tt.

Definition post_save_Message (instance : Message.t) (created : bool)
    : M unit :=
  if signals_connected then regenerate_summary_on_message_save instance created
  else ret tt.

(** ** [Message.save]

    [super().save()] is the save of [Model]: [created_at] has
    [auto_now_add]; the row needs an existing role and an existing
    version. *)
Definition Model_save_Message (adding : bool) (self : Message.t)
    : M Message.t :=
  let* t := now in
  let* present := query (fun w =>
      Ok (bool_decide (is_Some (messages w !! Message.id self)))) in
  let created := adding || negb present in
  let self := if created then Message.with_created_at t self else self in
  let* _ := require (negb (adding && present))
                    (IntegrityError "chat_message.id") in
  let* role_ok := query (fun w =>
      Ok (bool_decide (is_Some (Message.role self))
          && fk_present (roles w) (Message.role self))) in
  let* _ := require role_ok (IntegrityError "chat_message.role_id") in
  let* version_ok := query (fun w =>
      Ok (fk_present (versions w) (Some (Message.version self)))) in
  let* _ := require version_ok (IntegrityError "chat_message.version_id") in
  let* _ := modify (fun w =>
      set_messages (<[Message.id self := self]> (messages w)) w) in
  let* _ := post_save_Message self created in
  ret self.

Definition Message_save (adding : bool) (self : Message.t) : M Message.t :=
  let* version := Version_objects_get (Message.version self) in
  let* conversation :=
    Conversation_objects_get (Version.conversation version) in
  let* _ := Conversation_save false conversation in
  Model_save_Message adding self.

(** [Model.save] for [Version]: no receiver listens to it. *)
Definition Version_save (adding : bool) (self : Version.t) : M Version.t :=
  let* present := query (fun w =>
      Ok (bool_decide (is_Some (versions w !! Version.id self)))) in
  let* _ := require (negb (adding && present))
                    (IntegrityError "chat_version.id") in
  let* fk_ok := query (fun w =>
      Ok (fk_present (conversations w) (Some (Version.conversation self))
          && fk_present (versions w) (Version.parent_version self)
          && fk_present (messages w) (Version.root_message self))) in
  let* _ := require fk_ok (IntegrityError "chat_version foreign key") in
  let* _ := modify (fun w =>
      set_versions (<[Version.id self := self]> (versions w)) w) in
  ret self.

(** ** serializers.py

    The payloads are the dictionaries the serializers are handed.  A key
    that may be missing is an [option]; a key whose value may be [None] is
    an [option] of an [option]. *)

Record MessageData : Type := mkMessageData {
  md_id : option UUID;
  md_content : option string;
  md_role : option Z;
  md_uuid4 : UUID          (* the default primary key of a row created *)
}.

Record VersionData : Type := mkVersionData {
  vd_id : option UUID;
  vd_conversation : option (option UUID);
  vd_parent_version : option (option UUID);
  vd_root_message : option (option UUID);
  vd_messages : list MessageData;
  vd_is_valid : bool;      (* what [version_serializer.is_valid()] answers *)
  vd_uuid4 : UUID
}.

Record ConversationData : Type := mkConversationData {
  cd_title : option string;
  cd_active_version : option (option UUID);
  cd_user : option Z;
  cd_versions : list VersionData;
  cd_uuid4 : UUID
}.

(** [validated_data.get(key, default)] *)
Definition dict_get {A} (entry : option (option A)) (default : option A)
    : option A :=
  match entry with
  | Some value => value
  | None => default
  end.

(** [should_serialize]: [True], or [None] by falling off the end. *)
Definition should_serialize {A} (entry : option (option A)) : bool :=
  match entry with
  | Some (Some _) => true
  | _ => false
  end.

(** [Message.objects.create] with [version] and the keys of [message_data] *)
Definition Message_objects_create (version : UUID) (data : MessageData)
    : M Message.t :=
  Message_save true
    {| Message.id := default (md_uuid4 data) (md_id data);
       Message.content := default "" (md_content data);
       Message.role := md_role data;
       Message.created_at := 0;
       Message.version := version |}.

Definition MessageSerializer_create (version : UUID) (validated_data : MessageData)
    : M Message.t :=
  Message_objects_create version validated_data.

(** [Message.objects.get(id=..., version=instance)] *)
Definition Message_objects_get (id version : UUID) : M Message.t :=
  query (fun w =>
    match messages w !! id with
    | Some m => if String.eqb (Message.version m) version then Ok m
                else Raise (DoesNotExist "Message")
    | None => Raise (DoesNotExist "Message")
    end).

(** [Version.objects.create] with the keys of [validated_data] *)
Definition Version_objects_create (validated_data : VersionData)
    : M Version.t :=
  match dict_get (vd_conversation validated_data) None with
  | None => raise (IntegrityError "chat_version.conversation_id")
  | Some conversation =>
      Version_save true
        {| Version.id := default (vd_uuid4 validated_data)
                                 (vd_id validated_data);
           Version.conversation := conversation;
           Version.parent_version :=
             dict_get (vd_parent_version validated_data) None;
           Version.root_message :=
             dict_get (vd_root_message validated_data) None |}
  end.

Definition VersionSerializer_create (validated_data : VersionData)
    : M Version.t :=
  let messages_data := vd_messages validated_data in
  let* version := Version_objects_create validated_data in
  let* _ := for_each messages_data (fun message_data =>
              let* _ := Message_objects_create (Version.id version)
                          message_data in
              ret tt) in
  ret version.

(** The body of the loop over [messages_data] in
    [VersionSerializer.update]. *)
Definition upsert_message (instance : UUID) (message_data : MessageData)
    : M unit :=
  match md_id message_data with
  | Some id =>
      let* message := Message_objects_get id instance in
      let message :=
        Message.with_content
          (default (Message.content message) (md_content message_data))
          message in
      let message :=
        Message.with_role
          (match md_role message_data with
           | Some r => Some r
           | None => Message.role message
           end) message in
      let* _ := Message_save false message in
      ret tt
  | None =>
      let* _ := Message_objects_create instance message_data in
      ret tt
  end.

Definition VersionSerializer_update (instance : Version.t)
    (validated_data : VersionData) : M Version.t :=
  let conversation := dict_get (vd_conversation validated_data)
                        (Some (Version.conversation instance)) in
  let parent_version := dict_get (vd_parent_version validated_data)
                          (Version.parent_version instance) in
  let root_message := dict_get (vd_root_message validated_data)
                        (Version.root_message instance) in
  if negb (should_serialize (vd_conversation validated_data)
           || should_serialize (vd_parent_version validated_data)
           || should_serialize (vd_root_message validated_data))
  then raise (ValidationError
    "At least one of the following fields must be provided: conversation, parent_version, root_message")
  else
    let* instance :=
      match conversation with
      | None => raise (IntegrityError "chat_version.conversation_id")
      | Some conversation =>
          Version_save false
            {| Version.id := Version.id instance;
               Version.conversation := conversation;
               Version.parent_version := parent_version;
               Version.root_message := root_message |}
      end in
    let messages_data := vd_messages validated_data in
    let* _ := for_each messages_data
                (upsert_message (Version.id instance)) in
    ret instance.

(** [version_serializer.save(conversation=conversation)]: the keyword is
    merged into the validated data; with an instance the serializer
    updates, without one it creates. *)
Definition with_conversation_kw (conversation : UUID) (d : VersionData)
    : VersionData :=
  mkVersionData (vd_id d) (Some (Some conversation)) (vd_parent_version d)
                (vd_root_message d) (vd_messages d) (vd_is_valid d)
                (vd_uuid4 d).

(** [Conversation] built from the keys of [validated_data]: the instance
    with the defaults of its fields, before it is saved (the first save sets
    [created_at] and [modified_at]). *)
Definition Conversation_init (validated_data : ConversationData) (user : Z)
    : Conversation.t :=
  {| Conversation.id := cd_uuid4 validated_data;
     Conversation.title := default "Mock title" (cd_title validated_data);
     Conversation.created_at := 0;
     Conversation.modified_at := 0;
     Conversation.active_version :=
       dict_get (cd_active_version validated_data) None;
     Conversation.deleted_at := None;
     Conversation.user := user;
     Conversation.summary := None;
     Conversation.summary_generated_at := None;
     Conversation.is_summary_stale := false |}.

(** [Conversation.objects.create] with the keys of [validated_data] *)
Definition Conversation_objects_create (validated_data : ConversationData)
    : M Conversation.t :=
  match cd_user validated_data with
  | None => raise (IntegrityError "chat_conversation.user_id")
  | Some user => Conversation_save true (Conversation_init validated_data user)
  end.

Definition ConversationSerializer_create (validated_data : ConversationData)
    : M Conversation.t :=
  let versions_data := cd_versions validated_data in
  let* conversation := Conversation_objects_create validated_data in
  let* _ := for_each versions_data (fun version_data =>
      if vd_is_valid version_data then
        let* _ := VersionSerializer_create
                    (with_conversation_kw (Conversation.id conversation)
                                          version_data) in
        ret tt
      else ret tt) in
  ret conversation.

(** [Version.objects.get(id=..., conversation=instance)] *)
Definition Version_objects_get_in (id conversation : UUID) : M Version.t :=
  query (fun w =>
    match versions w !! id with
    | Some v => if String.eqb (Version.conversation v) conversation
                then Ok v else Raise (DoesNotExist "Version")
    | None => Raise (DoesNotExist "Version")
    end).

Definition ConversationSerializer_update (instance : Conversation.t)
    (validated_data : ConversationData) : M Conversation.t :=
  let instance :=
    Conversation.with_title
      (default (Conversation.title instance) (cd_title validated_data))
      instance in
  let active_version_id :=
    dict_get (cd_active_version validated_data)
             (Conversation.active_version instance) in
  let* instance :=
    match active_version_id with
    | Some id =>
        let* active_version := Version_objects_get id in
        ret (Conversation.with_active_version
               (Some (Version.id active_version)) instance)
    | None => ret instance
    end in
  let* instance := Conversation_save false instance in
  let versions_data := cd_versions validated_data in
  let* _ := for_each versions_data (fun version_data =>
      match vd_id version_data with
      | Some id =>
          let* version :=
            Version_objects_get_in id (Conversation.id instance) in
          if vd_is_valid version_data then
            let* _ := VersionSerializer_update version
                        (with_conversation_kw (Conversation.id instance)
                                              version_data) in
            ret tt
          else ret tt
      | None =>
          if vd_is_valid version_data then
            let* _ := VersionSerializer_create
                        (with_conversation_kw (Conversation.id instance)
                                              version_data) in
            ret tt
          else ret tt
      end) in
  ret instance.

(** ** Deleting a queryset of conversations

    Django collects what the delete takes with it before it deletes:
    [Version.conversation], [Message.version] and
    [Conversation.active_version] are declared [on_delete=CASCADE];
    [Version.parent_version], [Version.root_message] and
    [UploadedFile.conversation] are declared [on_delete=SET_NULL]. *)

Definition refers_to (s : gset string) (k : option string) : bool :=
  match k with
  | Some k => bool_decide (k ∈ s)
  | None => false
  end.

Definition versions_of (w : World) (cs : gset string) : gset string :=
  dom (filter (λ kv, refers_to cs (Some (Version.conversation kv.2)))
              (versions w)).

Definition conversations_on (w : World) (vs : gset string) : gset string :=
  dom (filter (λ kv, refers_to vs (Conversation.active_version kv.2))
              (conversations w)).

Definition messages_of (w : World) (vs : gset string) : gset string :=
  dom (filter (λ kv, refers_to vs (Some (Message.version kv.2)))
              (messages w)).

Definition collect_step (w : World) (cs : gset string) : gset string :=
  cs ∪ conversations_on w (versions_of w cs).

Fixpoint collect (fuel : nat) (w : World) (cs : gset string) : gset string :=
  match fuel with
  | O => cs
  | S fuel => collect fuel w (collect_step w cs)
  end.

(** The collection ends when a round adds nothing; a round that adds
    something adds a conversation, so as many rounds as there are
    conversations are enough. *)
Definition collect_conversations (w : World) (cs : gset string)
    : gset string :=
  collect (size (conversations w)) w cs.

Definition nullify (s : gset string) (k : option string) : option string :=
  if refers_to s k then None else k.

(** What [QuerySet.delete()] returns: the total number of rows deleted,
    over all models, and the number per model. *)
Record Deleted : Type := mkDeleted {
  deleted_conversations : Z;
  deleted_versions : Z;
  deleted_messages : Z
}.

Definition deleted_total (d : Deleted) : Z :=
  deleted_conversations d + deleted_versions d + deleted_messages d.

Definition matching (selected : Conversation.t -> bool) (w : World)
    : gset string :=
  dom (filter (λ kv, selected kv.2) (conversations w)).

(** [Conversation.objects.filter(...).delete()] *)
Definition Conversation_queryset_delete (selected : Conversation.t -> bool)
    : M (Z * Deleted) :=
  fun w =>
    let cs := collect_conversations w (matching selected w) in
    let vs := versions_of w cs in
    let ms := messages_of w vs in
    let w' :=
      mkWorld (roles w) (users w)
        (filter (λ kv, kv.1 ∉ cs) (conversations w))
        ((λ v, Version.mk (Version.id v) (Version.conversation v)
                 (nullify vs (Version.parent_version v))
                 (nullify ms (Version.root_message v)))
           <$> filter (λ kv, kv.1 ∉ vs) (versions w))
        (filter (λ kv, kv.1 ∉ ms) (messages w))
        ((λ f, UploadedFile.with_conversation
                 (nullify cs (UploadedFile.conversation f)) f)
           <$> uploaded_files w)
        (cache w) (clock w) (stdout w) in
    let d := mkDeleted (Z.of_nat (size cs)) (Z.of_nat (size vs))
                       (Z.of_nat (size ms)) in
    (w', Ok (deleted_total d, d)).

(** [timedelta(days=days)] in seconds *)
Definition timedelta_days (days : Z) : Z := days * 86400.

(** ** tasks.py *)

(** The task returns [{'deleted': deleted_count}]; the function here
    returns [deleted_count]. *)
Definition cleanup_old_conversations (days : Z) : M Z :=
  let* t := now in
  let cutoff_date := t - timedelta_days days in
  let* (deleted_count, _) :=
    Conversation_queryset_delete
      (fun c => Conversation.created_at c <? cutoff_date) in
  ret deleted_count.


(** ** management/commands/cleanup_conversations.py *)

Record Options : Type := mkOptions {
  opt_days : Z;
  opt_dry_run : bool;
  opt_user : option string
}.

Definition write (line : string) : M unit :=
  modify (fun w => set_stdout (stdout w ++ [line]) w).

(** The queryset of the command: older than the cutoff and, with a user
    name given, owned by the user of that name. *)
Definition command_queryset (cutoff_date : datetime)
    (user_filter : option string) (w : World) (c : Conversation.t) : bool :=
  (Conversation.created_at c <? cutoff_date)
  && (if truthy user_filter
      then bool_decide (users w !! Conversation.user c = user_filter)
      else true).

(** [Meta.ordering = ['-created_at']] *)
Fixpoint insert_newest_first (c : Conversation.t) (l : list Conversation.t)
    : list Conversation.t :=
  match l with
  | [] => [c]
  | x :: l' =>
      if Conversation.created_at x <=? Conversation.created_at c then c :: l
      else x :: insert_newest_first c l'
  end.

Definition rows_newest_first (selected : Conversation.t -> bool) (w : World)
    : list Conversation.t :=
  foldr insert_newest_first []
        (filter (λ c, selected c) (map_to_list (conversations w)).*2).

(** [confirm] is what the operator types at the prompt of [input]; every
    [self.stdout.write] adds a line to the output, the colours of
    [self.style] left out. *)
Definition handle (options : Options) (confirm : string) : M unit :=
  let days := opt_days options in
  let dry_run := opt_dry_run options in
  let user_filter := opt_user options in
  let* t := now in
  let cutoff_date := t - timedelta_days days in
  let* queryset := query (fun w =>
      Ok (command_queryset cutoff_date user_filter w)) in
  let* count := query (fun w => Ok (Z.of_nat (size (matching queryset w)))) in
  if count =? 0 then
    write "No conversations found matching criteria"
  else
    let* _ := write ("Conversations to delete: " +:+ pretty count
                     +:+ newline) in
    if dry_run then
      let* _ := write ("DRY RUN - No deletions made" +:+ newline) in
      let* rows := query (fun w => Ok (take 5 (rows_newest_first queryset w))) in
      for_each rows (fun conv =>
        let* related := query (fun w => conversation_messages w conv) in
        write ("  - " +:+ Conversation.title conv +:+ " ("
               +:+ pretty (Z.of_nat (length related)) +:+ " messages)"))
    else
      let* _ := write ("Delete " +:+ pretty count
                       +:+ " conversations? (yes/no): ") in
      if String.eqb (lower confirm) "yes" then
        let* (deleted_count, _) := Conversation_queryset_delete queryset in
        write ("✓ Deleted " +:+ pretty deleted_count +:+ " conversations")
      else write "Deletion cancelled".

(** ** The mutations of the store *)

Inductive mutation : Type :=
| CreateConversation (data : ConversationData)
| UpdateConversation (id : UUID) (data : ConversationData)
| CreateVersion (data : VersionData)
| UpdateVersion (id : UUID) (data : VersionData)
| CreateMessage (version : UUID) (data : MessageData)
| UpsertMessage (version : UUID) (data : MessageData)
| CleanupOldConversations (days : Z)
| Tick (seconds : nat).

Definition discard {A} (m : M A) : M unit := let* _ := m in ret tt.

Definition apply (op : mutation) : M unit :=
  match op with
  | CreateConversation data => discard (ConversationSerializer_create data)
  | UpdateConversation id data =>
      let* instance := Conversation_objects_get id in
      discard (ConversationSerializer_update instance data)
  | CreateVersion data => discard (VersionSerializer_create data)
  | UpdateVersion id data =>
      let* instance := Version_objects_get id in
      discard (VersionSerializer_update instance data)
  | CreateMessage version data =>
      discard (MessageSerializer_create version data)
  | UpsertMessage version data => upsert_message version data
  | CleanupOldConversations days => discard (cleanup_old_conversations days)
  | Tick seconds => modify (fun w => set_clock (clock w + Z.of_nat seconds) w)
  end.

(** A mutation that raises leaves in the store what it wrote before. *)
Fixpoint run (ops : list mutation) (w : World) : World :=
  match ops with
  | [] => w
  | op :: ops => run ops (apply op w).1
  end.

End Chat.

(** ** The objects the application hands to that code

    The receiver of [post_save] for [Message] is handed a [Message] and reads
    [instance.conversation]; [models.py] declares no such attribute on
    [Message] (it has [version], and the conversation is
    [version.conversation]).  The summary service and the command are handed
    a [Conversation] and read [conversation.messages]; [models.py] declares
    the reverse accessor [messages] on [Version], and none on
    [Conversation]. *)

Definition Message_conversation (w : World) (instance : Message.t)
    : result (option Conversation.t) :=
  Raise (AttributeError "Message" "conversation").

Definition Conversation_messages (w : World) (conversation : Conversation.t)
    : result (list Message.t) :=
  Raise (AttributeError "Conversation" "messages").

(** The accessors as the specification reads them: the conversation of a
    message is that of its version, the messages of a conversation are those
    of its versions.  They serve to show what the code does when it is handed
    objects that answer to these attributes. *)
Definition through_version (w : World) (instance : Message.t)
    : result (option Conversation.t) :=
  match versions w !! Message.version instance with
  | None => Raise (DoesNotExist "Version")
  | Some v =>
      match conversations w !! Version.conversation v with
      | None => Raise (DoesNotExist "Conversation")
      | Some c => Ok (Some c)
      end
  end.

Definition message_in (w : World) (conversation : Conversation.t)
    (m : Message.t) : bool :=
  match versions w !! Message.version m with
  | Some v => String.eqb (Version.conversation v) (Conversation.id conversation)
  | None => false
  end.

Definition through_versions (w : World) (conversation : Conversation.t)
    : result (list Message.t) :=
  Ok (filter (λ m, message_in w conversation m) (map_to_list (messages w)).*2).

(** ** Uploaded files *)

(** [name.rsplit('.', 1)[1]], when there is a dot in [name] *)
Fixpoint after_last_dot (name : string) : option string :=
  match name with
  | EmptyString => None
  | String c rest =>
      match after_last_dot rest with
      | Some ext => Some ext
      | None => if Ascii.eqb c "."%char then Some rest else None
      end
  end.

Record UploadData : Type := mkUploadData {
  ud_user : option Z;
  ud_conversation : option UUID;
  ud_file : option File;
  ud_filename : option string;
  ud_file_size : option Z;
  ud_file_type : option string;
  ud_uuid4 : UUID
}.

Section Upload.

(** [hashlib.sha256(data).hexdigest()] *)
Variable sha256_hexdigest : string -> string.

(** The chunks of the file are fed to the hash one after the other, which
    hashes the bytes of the file. *)
Definition calculate_file_hash (file_obj : File) : string :=
  sha256_hexdigest (file_bytes file_obj).

(** The truth value of a file field is that of its name. *)
Definition file_truthy (f : File) : bool := negb (String.eqb (file_name f) "").

(** [UploadedFile.objects.filter(file_hash=file_hash).exists()] *)
Definition file_hash_exists (file_hash : string) (w : World) : bool :=
  bool_decide (filter (λ kv, UploadedFile.file_hash kv.2 = file_hash)
                      (uploaded_files w) ≠ ∅).

(** [UploadedFile.save]; [super().save()] is the save of [Model]:
    [uploaded_at] has [auto_now_add], [file_hash] is unique. *)
Definition UploadedFile_save (adding : bool) (self : UploadedFile.t)
    : M UploadedFile.t :=
  let self :=
    if file_truthy (UploadedFile.file self)
       && String.eqb (UploadedFile.file_hash self) ""
    then UploadedFile.with_file_hash
           (calculate_file_hash (UploadedFile.file self)) self
    else self in
  let* t := now in
  let* present := query (fun w =>
      Ok (bool_decide (is_Some (uploaded_files w !! UploadedFile.id self)))) in
  let created := adding || negb present in
  let self := if created then UploadedFile.with_uploaded_at t self else self in
  let* _ := require (negb (adding && present))
                    (IntegrityError "chat_uploadedfile.id") in
  let* unique := query (fun w =>
      Ok (negb (file_hash_exists (UploadedFile.file_hash self)
                  (set_uploaded_files
                     (delete (UploadedFile.id self) (uploaded_files w)) w)))) in
  let* _ := require unique (IntegrityError "chat_uploadedfile.file_hash") in
  let* fk_ok := query (fun w =>
      Ok (fk_present (users w) (Some (UploadedFile.user self))
          && fk_present (conversations w) (UploadedFile.conversation self))) in
  let* _ := require fk_ok (IntegrityError "chat_uploadedfile foreign key") in
  let* _ := modify (fun w =>
      set_uploaded_files (<[UploadedFile.id self := self]> (uploaded_files w))
                         w) in
  ret self.

Definition validate_file (value : File) : M File :=
  let file_hash := calculate_file_hash value in
  let* duplicate := query (fun w => Ok (file_hash_exists file_hash w)) in
  if duplicate then
    raise (SerializerValidationError
             "A file with the same content has already been uploaded.")
  else ret value.

(** [UploadedFile.objects.create] with the keys of [validated_data]; a
    field without a key takes its default. *)
Definition UploadedFile_objects_create (validated_data : UploadData)
    : M UploadedFile.t :=
  match ud_user validated_data, ud_file_size validated_data with
  | Some user, Some file_size =>
      UploadedFile_save true
        {| UploadedFile.id := ud_uuid4 validated_data;
           UploadedFile.user := user;
           UploadedFile.conversation := ud_conversation validated_data;
           UploadedFile.file := default (mkFile "" "") (ud_file validated_data);
           UploadedFile.filename := default "" (ud_filename validated_data);
           UploadedFile.file_size := file_size;
           UploadedFile.file_type := default "" (ud_file_type validated_data);
           UploadedFile.file_hash := "";
           UploadedFile.status := "pending";
           UploadedFile.uploaded_at := 0;
           UploadedFile.processed_at := None;
           UploadedFile.error_message := None;
           UploadedFile.mime_type := None;
           UploadedFile.page_count := None;
           UploadedFile.is_indexed := false |}
  | None, _ => raise (IntegrityError "chat_uploadedfile.user_id")
  | _, None => raise (IntegrityError "chat_uploadedfile.file_size")
  end.

(** [request_user] is [request.user] when the context has a request. *)
Definition UploadedFileSerializer_create (request_user : option Z)
    (validated_data : UploadData) : M UploadedFile.t :=
  let user := match request_user with
              | Some u => Some u
              | None => ud_user validated_data
              end in
  let file_obj := ud_file validated_data in
  let populated :=
    match file_obj with
    | Some f =>
        if file_truthy f then
          mkUploadData user (ud_conversation validated_data) file_obj
            (Some (file_name f))
            (Some (Z.of_nat (String.length (file_bytes f))))
            (Some (default "" (after_last_dot (file_name f))))
            (ud_uuid4 validated_data)
        else
          mkUploadData user (ud_conversation validated_data) file_obj
            (ud_filename validated_data) (ud_file_size validated_data)
            (ud_file_type validated_data) (ud_uuid4 validated_data)
    | None =>
        mkUploadData user (ud_conversation validated_data) file_obj
          (ud_filename validated_data) (ud_file_size validated_data)
          (ud_file_type validated_data) (ud_uuid4 validated_data)
    end in
  UploadedFile_objects_create populated.

(** Modelled from the spec: an upload validates the file and, when the
    validation passes, creates the record (Validate and Create of the
    file registry); the view that drives the serializer is not among the
    sources. *)
Definition upload (request_user : Z) (pk : UUID) (conversation : option UUID)
    (f : File) : M UploadedFile.t :=
  let* value := validate_file f in
  UploadedFileSerializer_create (Some request_user)
    (mkUploadData None conversation (Some value) None None None pk).

End Upload.

(** ** tasks.py: the backfill of summaries *)

Section Backfill.

Variable conversation_messages :
  World -> Conversation.t -> result (list Message.t).
Variable ChatCompletion_create : ChatRequest -> result ChatResponse.

(** How the lookup [messages__isnull=False] resolves on [Conversation] when
    the queryset is built: the test it stands for, or the error of a keyword
    that names no field. *)
Variable messages_isnull_False : result (World -> Conversation.t -> bool).




End Backfill.

(** ** The computed fields of the serializers and of the models *)

(** [VersionSerializer.get_active]: [obj == obj.conversation.active_version];
    two instances of a model are equal when their primary keys are. *)
Definition get_active (obj : Version.t) (w : World) : result bool :=
  match conversations w !! Version.conversation obj with
  | None => Raise (DoesNotExist "Conversation")
  | Some conversation =>
      match Conversation.active_version conversation with
      | None => Ok false
      | Some vid =>
          match versions w !! vid with
          | None => Raise (DoesNotExist "Version")
          | Some active =>
              Ok (String.eqb (Version.id obj) (Version.id active))
          end
      end
  end.

(** [VersionSerializer.get_created_at]; [timezone.localtime] changes the
    zone the time is shown in, not the time. *)
Definition get_created_at (obj : Version.t) (w : World) : result datetime :=
  match Version.root_message obj with
  | None =>
      match conversations w !! Version.conversation obj with
      | None => Raise (DoesNotExist "Conversation")
      | Some conversation => Ok (Conversation.created_at conversation)
      end
  | Some mid =>
      match messages w !! mid with
      | None => Raise (DoesNotExist "Message")
      | Some root_message => Ok (Message.created_at root_message)
      end
  end.

(** [ConversationSummarySerializer.get_message_count]:
    [Message.objects.filter(version__conversation=obj).count()] *)
Definition get_message_count (obj : Conversation.t) (w : World) : Z :=
  Z.of_nat (size (filter (λ kv, message_in w obj kv.2) (messages w))).

(** [Conversation.version_count]: [self.versions.count()] *)
Definition version_count (self : Conversation.t) (w : World) : Z :=
  Z.of_nat (size (filter (λ kv, Version.conversation kv.2 = Conversation.id self)
                         (versions w))).

(** ** Properties of a world *)

(** Every row is stored under its primary key. *)
Definition keyed (w : World) : Prop :=
  (∀ k c, conversations w !! k = Some c → Conversation.id c = k)
  ∧ (∀ k v, versions w !! k = Some v → Version.id v = k).

(** The active version of a conversation, if set, is a version of that
    conversation. *)
Definition active_version_owned (w : World) : Prop :=
  ∀ k c vid,
    conversations w !! k = Some c →
    Conversation.active_version c = Some vid →
    ∃ v, versions w !! vid = Some v
         ∧ Version.conversation v = Conversation.id c.

(** The test of [active_version_owned] on one row. *)
Definition owns_active_version (w : World) (c : Conversation.t) : bool :=
  match Conversation.active_version c with
  | None => true
  | Some vid =>
      match versions w !! vid with
      | Some v => String.eqb (Version.conversation v) (Conversation.id c)
      | None => false
      end
  end.

Definition consistent (w : World) : Prop := keyed w ∧ active_version_owned w.

(** The active version that the instance [c] names is a version of [c]. *)
Definition active_ok (w : World) (c : Conversation.t) : Prop :=
  ∀ vid, Conversation.active_version c = Some vid →
         ∃ v, versions w !! vid = Some v
              ∧ Version.conversation v = Conversation.id c.

(** Writing [v] does not move a stored version to another conversation. *)
Definition stays_put (w : World) (v : Version.t) : Prop :=
  ∀ v0, versions w !! Version.id v = Some v0 →
        Version.conversation v0 = Version.conversation v.

(** A mutation respects ownership in [w] when the active version it names
    for a conversation is a version of that conversation, and when it moves
    no version to another conversation. *)
Definition respects_ownership (w : World) (op : mutation) : Prop :=
  match op with
  | CreateConversation data => dict_get (cd_active_version data) None = None
  | UpdateConversation id data =>
      ∀ vid, cd_active_version data = Some (Some vid) →
             ∃ v, versions w !! vid = Some v ∧ Version.conversation v = id
  | UpdateVersion id data =>
      ∀ c, vd_conversation data = Some (Some c) →
           ∃ v, versions w !! id = Some v ∧ Version.conversation v = c
  | _ => True
  end.

Section Scoped.
Variable instance_conversation :
  World -> Message.t -> result (option Conversation.t).
Variable conversation_messages :
  World -> Conversation.t -> result (list Message.t).
Variable ChatCompletion_create : ChatRequest -> result ChatResponse.

(** Every mutation of the sequence respects ownership in the world it
    runs in. *)
Fixpoint scoped (ops : list mutation) (w : World) : Prop :=
  match ops with
  | [] => True
  | op :: ops =>
      respects_ownership w op
      ∧ scoped ops
          (apply instance_conversation conversation_messages
                 ChatCompletion_create op w).1
  end.
End Scoped.

(** Every reference that the database checks points at a row: the version
    of a message, the conversation, the parent and the root message of a
    version, the active version of a conversation, the conversation of a
    file. *)
Definition referential (w : World) : Prop :=
  (∀ k m, messages w !! k = Some m →
          is_Some (versions w !! Message.version m))
  ∧ (∀ k v, versions w !! k = Some v →
            is_Some (conversations w !! Version.conversation v)
            ∧ fk_present (versions w) (Version.parent_version v) = true
            ∧ fk_present (messages w) (Version.root_message v) = true)
  ∧ (∀ k c, conversations w !! k = Some c →
            fk_present (versions w) (Conversation.active_version c) = true)
  ∧ (∀ k f, uploaded_files w !! k = Some f →
            fk_present (conversations w) (UploadedFile.conversation f) = true).


(** The tables of the database of two worlds are the same. *)
Definition same_tables (w w' : World) : Prop :=
  conversations w' = conversations w
  ∧ versions w' = versions w
  ∧ messages w' = messages w
  ∧ uploaded_files w' = uploaded_files w.

(** [w'] has every version of [w], as it was, and every other version of
    [w'] belongs to the conversation [conversation]. *)
Definition versions_added_to (conversation : UUID) (w w' : World) : Prop :=
  (∀ k v, versions w !! k = Some v → versions w' !! k = Some v)
  ∧ (∀ k v, versions w' !! k = Some v →
            versions w !! k = Some v ∨ Version.conversation v = conversation).

(** [w'] has every conversation of [w], with the [modified_at] it had. *)
Definition keeps_modified_at (w w' : World) : Prop :=
  ∀ k c, conversations w !! k = Some c →
         ∃ c', conversations w' !! k = Some c'
               ∧ Conversation.modified_at c' = Conversation.modified_at c.

(** The summarizer errors or produces no usable summary, whatever it is
    asked. *)
Definition summarizer_fails (ChatCompletion_create : ChatRequest -> result ChatResponse)
    : Prop :=
  ∀ request,
    match ChatCompletion_create request with
    | Raise _ => True
    | Ok response =>
        match first_choice_stripped response with
        | Raise _ => True
        | Ok summary => summary = ""
        end
    end.

(** ** Worlds to run the code in *)

Module Fixture.

Definition day : Z := 86400.
Definition today : datetime := 100 * day.

Definition alice : Z := 1.
Definition bob : Z := 2.

Definition some_roles : gmap Z Role.t :=
  <[1 := Role.mk 1 "user"]> (<[2 := Role.mk 2 "assistant"]> ∅).
Definition some_users : gmap Z string :=
  <[alice := "alice"]> (<[bob := "bob"]> ∅).

Definition conversation (id : UUID) (age_days : Z) (owner : Z)
    (active : option UUID) : Conversation.t :=
  Conversation.mk id "Mock title" (today - age_days * day)
                  (today - age_days * day) active None owner None None true.

Definition c10 : UUID := "0000000a-0000-4000-8000-000000000010".
Definition c31 : UUID := "0000000a-0000-4000-8000-000000000031".
Definition c60 : UUID := "0000000a-0000-4000-8000-000000000060".
Definition v31 : UUID := "0000000b-0000-4000-8000-000000000031".
Definition v60 : UUID := "0000000b-0000-4000-8000-000000000060".
Definition m1 : UUID := "0000000c-0000-4000-8000-000000000001".
Definition m2 : UUID := "0000000c-0000-4000-8000-000000000002".
Definition m3 : UUID := "0000000c-0000-4000-8000-000000000003".
Definition m4 : UUID := "0000000c-0000-4000-8000-000000000004".
Definition fresh : UUID := "0000000d-0000-4000-8000-000000000001".

(** Three conversations, 10, 31 and 60 days old, without versions. *)
Definition three_conversations : World :=
  mkWorld some_roles some_users
    (<[c10 := conversation c10 10 alice None]>
       (<[c31 := conversation c31 31 alice None]>
          (<[c60 := conversation c60 60 bob None]> ∅)))
    ∅ ∅ ∅ ∅ today [].

(** A conversation 31 days old with one version that holds one message. *)
Definition one_thread : World :=
  mkWorld some_roles some_users
    (<[c31 := conversation c31 31 alice (Some v31)]> ∅)
    (<[v31 := Version.mk v31 c31 None None]> ∅)
    (<[m1 := Message.mk m1 "Hello" (Some 1) (today - 31 * day) v31]> ∅)
    ∅ ∅ today [].

(** Two conversations with a version each; the version of the first holds
    three messages. *)
Definition two_threads : World :=
  mkWorld some_roles some_users
    (<[c31 := conversation c31 31 alice (Some v31)]>
       (<[c60 := conversation c60 60 bob (Some v60)]> ∅))
    (<[v31 := Version.mk v31 c31 None None]>
       (<[v60 := Version.mk v60 c60 None None]> ∅))
    (<[m1 := Message.mk m1 "Hello" (Some 1) (today - 31 * day) v31]>
       (<[m2 := Message.mk m2 "Hi, how can I help?" (Some 2)
                           (today - 31 * day + 5) v31]>
          (<[m3 := Message.mk m3 "Tell me about tides." (Some 1)
                              (today - 31 * day + 9) v31]> ∅)))
    ∅ ∅ today [].

(** A provider that answers every request with the same text. *)
Definition answering (text : string) : ChatRequest -> result ChatResponse :=
  fun _ => Ok [Some text].

(** A provider that answers with the text it was asked to summarize. *)
Definition echoing : ChatRequest -> result ChatResponse :=
  fun request => Ok [chat_content <$> last (request_messages request)].

(** A provider that is down. *)
Definition failing : ChatRequest -> result ChatResponse :=
  fun _ => Raise (OpenAIError "The server is overloaded").

(** A stand-in for SHA-256 with digests of the right length: enough to run
    the upload code, which only compares digests. *)
Definition toy_digest (data : string) : string :=
  String.substring 0 64
    (data +:+ "0000000000000000000000000000000000000000000000000000000000000000").

Definition report : File := mkFile "report.pdf" "%PDF-1.7 tides".
Definition copy_of_report : File := mkFile "copy.pdf" "%PDF-1.7 tides".

End Fixture.


(** * What the code guarantees *)

Lemma Conversation_has_no_messages : "messages" ∉ Conversation.attributes.
Proof. apply (bool_decide_eq_false_1 _). vm_compute. reflexivity. Qed.

Lemma Message_has_no_conversation : "conversation" ∉ Message.attributes.
Proof. apply (bool_decide_eq_false_1 _). vm_compute. reflexivity. Qed.

Lemma Version_has_messages : "messages" ∈ Version.attributes.
Proof. apply (bool_decide_eq_true_1 _). vm_compute. reflexivity. Qed.

(** ** Saving a conversation *)

Lemma Conversation_save_ok adding self w :
  negb (adding
        && bool_decide (is_Some (conversations w !! Conversation.id self)))
  = true →
  is_Some (users w !! Conversation.user self) →
  fk_present (versions w) (Conversation.active_version self) = true →
  ∃ c w', Conversation_save adding self w = (w', Ok c)
     ∧ conversations w' = <[Conversation.id self := c]> (conversations w)
     ∧ conversations w' !! Conversation.id self = Some c
     ∧ Conversation.id c = Conversation.id self
     ∧ Conversation.active_version c = Conversation.active_version self
     ∧ Conversation.modified_at c = clock w
     ∧ (adding = true → Conversation.is_summary_stale c = true)
     ∧ versions w' = versions w ∧ messages w' = messages w
     ∧ clock w' = clock w ∧ roles w' = roles w.
Proof.
  intros Hpk Hu Hv.
  unfold Conversation_save, bind, now, query, require, modify.
  rewrite Hpk. cbv zeta.
  destruct (adding || _) eqn:Hcreated; cbn;
    rewrite (bool_decide_true _ Hu); cbn; rewrite Hv; cbn.
  - eexists _, _. split; [reflexivity|]. cbn.
    rewrite lookup_alter_eq, lookup_insert_eq. cbn.
    split; [|done].
    apply map_eq. intros k. destruct (decide (k = Conversation.id self)) as [->|].
    + by rewrite lookup_alter_eq, !lookup_insert_eq.
    + by rewrite lookup_alter_ne, !lookup_insert_ne.
  - eexists _, _. split; [reflexivity|]. cbn.
    rewrite lookup_insert_eq.
    apply orb_false_iff in Hcreated as [-> _]. done.
Qed.

(** ** C7: the check of [VersionSerializer.update] *)

Section Upsert.
Variable instance_conversation :
  World -> Message.t -> result (option Conversation.t).
Variable conversation_messages :
  World -> Conversation.t -> result (list Message.t).
Variable ChatCompletion_create : ChatRequest -> result ChatResponse.


(** The upsert of [ConversationSerializer.update] always supplies the
    conversation, so the check passes there. *)
Lemma with_conversation_kw_passes conversation data :
  should_serialize (vd_conversation (with_conversation_kw conversation data))
  = true.
Proof. reflexivity. Qed.


End Upsert.

Import Fixture.

Lemma three_conversations_keyed : keyed three_conversations.
Proof.
  split.
  - apply (bool_decide_unpack (map_Forall _ _)). vm_compute. exact I.
  - apply (bool_decide_unpack (map_Forall _ _)). vm_compute. exact I.
Qed.

Lemma two_threads_keyed : keyed two_threads.
Proof.
  split.
  - apply (bool_decide_unpack (map_Forall _ _)). vm_compute. exact I.
  - apply (bool_decide_unpack (map_Forall _ _)). vm_compute. exact I.
Qed.





(** ** C9: a conversation that was just created *)

(** C9, as the code has it: the conversation that [Conversation.objects.create]
    builds from a title and an owner is stored with [is_summary_stale] true,
    which the receiver of [post_save] sets, the default of the field being
    false; its active version is unset. *)
Theorem Conversation_objects_create_is_stale data user w :
  cd_user data = Some user →
  cd_active_version data = None →
  is_Some (users w !! user) →
  conversations w !! cd_uuid4 data = None →
  ∃ c w',
    Conversation_objects_create data w = (w', Ok c)
    ∧ conversations w' !! cd_uuid4 data = Some c
    ∧ Conversation.is_summary_stale (Conversation_init data user) = false
    ∧ Conversation.is_summary_stale c = true
    ∧ Conversation.active_version c = None.
Proof.
  intros Huser Hactive Hu Hfresh.
  unfold Conversation_objects_create. rewrite Huser.
  destruct (Conversation_save_ok true (Conversation_init data user) w)
    as (c & w' & Hsave & _ & Hrow & _ & Hav & _ & Hstale & _).
  - cbn. rewrite Hfresh. reflexivity.
  - exact Hu.
  - cbn. rewrite Hactive. reflexivity.
  - exists c, w'. split; [exact Hsave|]. split; [exact Hrow|].
    split; [reflexivity|]. split; [auto|].
    rewrite Hav. cbn. rewrite Hactive. reflexivity.
Qed.

Lemma Conversation_objects_create_is_stale_witness :
  let data := mkConversationData (Some "Tides") None (Some alice) [] fresh in
  cd_user data = Some alice
  ∧ cd_active_version data = None
  ∧ is_Some (users three_conversations !! alice)
  ∧ conversations three_conversations !! cd_uuid4 data = None
  ∧ ∃ c w',
      Conversation_objects_create data three_conversations = (w', Ok c)
      ∧ conversations w' !! cd_uuid4 data = Some c
      ∧ Conversation.is_summary_stale (Conversation_init data alice) = false
      ∧ Conversation.is_summary_stale c = true
      ∧ Conversation.active_version c = None.
Proof.
  split; [reflexivity|]. split; [reflexivity|].
  split; [by eexists|]. split; [reflexivity|].
  apply Conversation_objects_create_is_stale;
    [reflexivity | reflexivity | by eexists | reflexivity].
Defined.

(** C9 fails as stated: the default of [is_summary_stale] is false. *)
Lemma is_summary_stale_defaults_to_false :
  Conversation.is_summary_stale
    (Conversation_init
       (mkConversationData (Some "Tides") None (Some alice) [] fresh) alice)
  = false.
Proof. reflexivity. Qed.

(** ** The summary service *)

Section Summary.
Variable instance_conversation :
  World -> Message.t -> result (option Conversation.t).
Variable conversation_messages :
  World -> Conversation.t -> result (list Message.t).
Variable ChatCompletion_create : ChatRequest -> result ChatResponse.

(** [generate_summary] always returns, and leaves the world as it was;
    a failure of the provider, at any point, makes it return [None]. *)
Lemma generate_summary_returns conversation w :
  ∃ summary,
    generate_summary conversation_messages ChatCompletion_create
      conversation w = (w, Ok summary)
    ∧ (summarizer_fails ChatCompletion_create → truthy summary = false).
Proof.
  cbv [generate_summary try_except bind query ret].
  destruct (conversation_messages w conversation) as [rows|e] eqn:Hrows;
    [|destruct e; eexists; split; reflexivity].
  destruct (_ <? _); [eexists; split; reflexivity|]. rewrite Hrows.
  destruct (transcript w _) as [context|e];
    [|destruct e; eexists; split; reflexivity].
  destruct (ChatCompletion_create _) as [response|e] eqn:Hcreate;
    [|destruct e; eexists; split; reflexivity].
  destruct (first_choice_stripped response) as [summary|e] eqn:Hfirst;
    [|destruct e; eexists; split; reflexivity].
  eexists; split; [reflexivity|]. intros Hfails.
  specialize (Hfails (summary_request context)).
  rewrite Hcreate, Hfirst in Hfails. by subst.
Qed.

(** Saving the summary columns touches those columns of one row. *)
Lemma Conversation_save_update_fields_spec fields self w :
  match conversations w !! Conversation.id self with
  | None =>
      Conversation_save_update_fields fields self w
      = (w, Raise (DatabaseError
                     "Save with update_fields did not affect any rows."))
  | Some row =>
      Conversation_save_update_fields fields self w
      = (set_conversations
           (<[Conversation.id self :=
                assign_fields fields (clock w) self row]> (conversations w))
           w, Ok self)
  end.
Proof.
  unfold Conversation_save_update_fields, bind, now, query, modify,
    post_save_Conversation, handle_conversation_save, signals_connected, ret.
  by destruct (conversations w !! Conversation.id self).
Qed.


(** C8: when the summarizer errors or produces no usable summary,
    [update_conversation_summary] answers [False] and leaves the world,
    with the stored summary and staleness flag of the conversation, and
    the instance as they were. *)
Theorem update_conversation_summary_failure conversation w :
  summarizer_fails ChatCompletion_create →
  update_conversation_summary conversation_messages ChatCompletion_create
    conversation w = (w, Ok (conversation, false)).
Proof.
  intros Hfails. unfold update_conversation_summary.
  destruct (generate_summary_returns conversation w)
    as (summary & Hgen & Hunusable).
  unfold try_except, bind. rewrite Hgen, (Hunusable Hfails). reflexivity.
Qed.

Lemma keeps_modified_at_refl w : keeps_modified_at w w.
Proof. intros k c Hc. eauto. Qed.

Lemma assign_fields_modified_at fields t self row :
  "modified_at" ∉ fields →
  Conversation.modified_at (assign_fields fields t self row)
  = Conversation.modified_at row.
Proof. intros Hnot. cbn. by rewrite bool_decide_false. Qed.

Lemma summary_fields_spare_modified_at :
  "modified_at" ∉ ["summary"; "summary_generated_at"; "is_summary_stale"].
Proof. apply (bool_decide_eq_false_1 _). vm_compute. reflexivity. Qed.

Lemma update_conversation_summary_keeps_modified_at conversation w :
  keeps_modified_at w
    (update_conversation_summary conversation_messages ChatCompletion_create
       conversation w).1.
Proof.
  unfold update_conversation_summary.
  destruct (generate_summary_returns conversation w) as (summary & Hgen & _).
  unfold try_except at 1. unfold bind at 1. rewrite Hgen.
  destruct (truthy summary); [|apply keeps_modified_at_refl].
  unfold bind at 1, now, query. unfold try_except, bind.
  pose proof (Conversation_save_update_fields_spec
    ["summary"; "summary_generated_at"; "is_summary_stale"]
    (Conversation.with_is_summary_stale false
       (Conversation.with_summary_generated_at (Some (clock w))
          (Conversation.with_summary summary conversation))) w) as Hsave.
  destruct (conversations w !! _) as [row|] eqn:Hrow; rewrite Hsave; cbn;
    [|apply keeps_modified_at_refl].
  intros k c Hc. cbn in Hrow. unfold keeps_modified_at. cbn.
  destruct (decide (k = Conversation.id conversation)) as [->|Hne].
  - rewrite lookup_insert_eq. eexists; split; [reflexivity|].
    rewrite assign_fields_modified_at
      by exact summary_fields_spare_modified_at.
    congruence.
  - rewrite lookup_insert_ne by done. eauto.
Qed.

Lemma regenerate_summary_keeps_modified_at instance created w :
  keeps_modified_at w
    (regenerate_summary_on_message_save instance_conversation
       conversation_messages ChatCompletion_create instance created w).1.
Proof.
  unfold regenerate_summary_on_message_save.
  destruct created; [|apply keeps_modified_at_refl].
  cbv [bind query].
  destruct (instance_conversation w instance) as [[conversation|]|e];
    try apply keeps_modified_at_refl.
  destruct (conversation_messages w conversation) as [rows|e];
    try apply keeps_modified_at_refl.
  destruct (_ <=? _); [|apply keeps_modified_at_refl].
  pose proof (update_conversation_summary_keeps_modified_at conversation w)
    as Hkeep.
  destruct (update_conversation_summary _ _ _ _) as [w' [r|e]]; exact Hkeep.
Qed.

Lemma Model_save_Message_keeps_modified_at adding self w :
  keeps_modified_at w
    (Model_save_Message instance_conversation conversation_messages
       ChatCompletion_create adding self w).1.
Proof.
  unfold Model_save_Message. cbv [bind now query require modify].
  destruct (negb _); cbn; [|apply keeps_modified_at_refl].
  destruct (_ && _); cbn; [|apply keeps_modified_at_refl].
  destruct (bool_decide _); cbn; [|apply keeps_modified_at_refl].
  unfold post_save_Message, signals_connected.
  match goal with
  | |- context [regenerate_summary_on_message_save _ _ _ ?i ?c ?w0] =>
      pose proof (regenerate_summary_keeps_modified_at i c w0) as Hkeep;
      destruct (regenerate_summary_on_message_save _ _ _ i c w0)
        as [w' [r|e]]; exact Hkeep
  end.
Qed.

(** C10: [Message.save] saves the conversation of the message first, in a
    world whose messages are still those of before, and the row of the
    message is written after that; whatever comes of that write, the
    conversation is left with [modified_at] at the time of the save. *)
Theorem Message_save_touches_conversation_first adding self v c w :
  versions w !! Message.version self = Some v →
  conversations w !! Version.conversation v = Some c →
  Conversation.id c = Version.conversation v →
  is_Some (users w !! Conversation.user c) →
  fk_present (versions w) (Conversation.active_version c) = true →
  ∃ w1 c1,
    Conversation_save false c w = (w1, Ok c1)
    ∧ conversations w1 !! Conversation.id c = Some c1
    ∧ Conversation.modified_at c1 = clock w
    ∧ messages w1 = messages w
    ∧ Message_save instance_conversation conversation_messages
        ChatCompletion_create adding self w
      = Model_save_Message instance_conversation conversation_messages
          ChatCompletion_create adding self w1
    ∧ ∃ c2,
        conversations
          (Message_save instance_conversation conversation_messages
             ChatCompletion_create adding self w).1 !! Conversation.id c
        = Some c2
        ∧ Conversation.modified_at c2 = clock w.
Proof.
  intros Hv Hc Hid Hu Hfk.
  destruct (Conversation_save_ok false c w) as
    (c1 & w1 & Hsave & _ & Hrow & _ & _ & Hmod & _ & _ & Hmsgs & _);
    [done|done|done|].
  exists w1, c1. split; [exact Hsave|]. split; [exact Hrow|].
  split; [exact Hmod|]. split; [exact Hmsgs|].
  assert (Message_save instance_conversation conversation_messages
            ChatCompletion_create adding self w
          = Model_save_Message instance_conversation conversation_messages
              ChatCompletion_create adding self w1) as Heq.
  { unfold Message_save. cbv [bind Version_objects_get
      Conversation_objects_get query]. rewrite Hv, Hc, Hsave. reflexivity. }
  split; [exact Heq|]. rewrite Heq.
  destruct (Model_save_Message_keeps_modified_at adding self w1 _ _ Hrow)
    as (c2 & Hc2 & Hmod2).
  exists c2. split; [exact Hc2|]. congruence.
Qed.
End Summary.

Lemma update_conversation_summary_failure_witness :
  summarizer_fails failing
  ∧ update_conversation_summary through_versions failing
      (conversation c31 31 alice (Some v31)) two_threads
    = (two_threads, Ok (conversation c31 31 alice (Some v31), false)).
Proof.
  split; [intros request; exact I|].
  apply update_conversation_summary_failure. intros request. exact I.
Defined.

(** In the same world a provider that answers is reached, and its answer,
    stripped, is stored: the failure above is a failure of the provider. *)
Example update_conversation_summary_success :
  let out := update_conversation_summary through_versions
               (answering "  The user asks about tides.  ")
               (conversation c31 31 alice (Some v31)) two_threads in
  snd <$> (match out.2 with Ok r => Some r | Raise _ => None end) = Some true
  ∧ Conversation.summary <$> conversations out.1 !! c31
    = Some (Some "The user asks about tides.")
  ∧ Conversation.is_summary_stale <$> conversations out.1 !! c31 = Some false
  ∧ cache out.1 !! ("conversation_summary_" +:+ c31)
    = Some ("The user asks about tides.", today + 3600).
Proof. vm_compute. repeat split; reflexivity. Qed.

Lemma Message_save_touches_conversation_first_witness :
  let self := Message.mk fresh "Hello again" None 0 v31 in
  let v := Version.mk v31 c31 None None in
  let c := conversation c31 31 alice (Some v31) in
  versions two_threads !! Message.version self = Some v
  ∧ conversations two_threads !! Version.conversation v = Some c
  ∧ Conversation.id c = Version.conversation v
  ∧ is_Some (users two_threads !! Conversation.user c)
  ∧ fk_present (versions two_threads) (Conversation.active_version c) = true
  ∧ ∃ w1 c1,
      Conversation_save false c two_threads = (w1, Ok c1)
      ∧ conversations w1 !! Conversation.id c = Some c1
      ∧ Conversation.modified_at c1 = clock two_threads
      ∧ messages w1 = messages two_threads
      ∧ Message_save Message_conversation Conversation_messages
          (answering "A summary.") true self two_threads
        = Model_save_Message Message_conversation Conversation_messages
            (answering "A summary.") true self w1
      ∧ ∃ c2,
          conversations
            (Message_save Message_conversation Conversation_messages
               (answering "A summary.") true self two_threads).1
            !! Conversation.id c = Some c2
          ∧ Conversation.modified_at c2 = clock two_threads.
Proof.
  split; [reflexivity|]. split; [reflexivity|]. split; [reflexivity|].
  split; [by eexists|]. split; [reflexivity|].
  apply (Message_save_touches_conversation_first Message_conversation
           Conversation_messages (answering "A summary.") true
           (Message.mk fresh "Hello again" None 0 v31)
           (Version.mk v31 c31 None None)
           (conversation c31 31 alice (Some v31)) two_threads);
    [reflexivity | reflexivity | reflexivity | by eexists | reflexivity].
Defined.

(** A message without a role: the write of its row fails, and the
    conversation, last modified 31 days ago, is left modified today. *)
Example Message_save_fails_after_the_touch :
  let self := Message.mk fresh "Hello again" None 0 v31 in
  let out := Message_save Message_conversation Conversation_messages
               (answering "A summary.") true self two_threads in
  out.2 = Raise (IntegrityError "chat_message.role_id")
  ∧ messages out.1 !! fresh = None
  ∧ Conversation.modified_at <$> conversations two_threads !! c31
    = Some (today - 31 * day)
  ∧ Conversation.modified_at <$> conversations out.1 !! c31 = Some today.
Proof. vm_compute. repeat split; reflexivity. Qed.

(** The same for the edit of a stored message. *)
Example Message_save_of_an_edit_touches :
  let self := Message.mk m1 "Hello, edited" (Some 1) (today - 31 * day) v31 in
  let out := Message_save Message_conversation Conversation_messages
               (answering "A summary.") false self two_threads in
  is_ok out.2 = true
  ∧ Message.content <$> messages out.1 !! m1 = Some "Hello, edited"
  ∧ Conversation.modified_at <$> conversations out.1 !! c31 = Some today.
Proof. vm_compute. repeat split; reflexivity. Qed.

(** ** C1 and C4: the code that is handed the models of [models.py] *)

(** The receiver of [post_save] raises for every message that was created:
    it reads [instance.conversation], which [Message] does not have. *)
Lemma regenerate_summary_on_message_save_raises ChatCompletion_create
    instance w :
  regenerate_summary_on_message_save Message_conversation Conversation_messages
    ChatCompletion_create instance true w
  = (w, Raise (AttributeError "Message" "conversation")).
Proof. reflexivity. Qed.

(** Every append whose row can be written raises: the version and its
    conversation are there, the role is there, the primary key is new, and
    the append stores the row and raises [AttributeError]. *)
Lemma every_append_raises ChatCompletion_create version data v c role w :
  versions w !! version = Some v →
  conversations w !! Version.conversation v = Some c →
  Conversation.id c = Version.conversation v →
  is_Some (users w !! Conversation.user c) →
  fk_present (versions w) (Conversation.active_version c) = true →
  md_role data = Some role →
  is_Some (roles w !! role) →
  messages w !! default (md_uuid4 data) (md_id data) = None →
  ∃ w',
    Message_objects_create Message_conversation Conversation_messages
      ChatCompletion_create version data w
    = (w', Raise (AttributeError "Message" "conversation"))
    ∧ messages w' !! default (md_uuid4 data) (md_id data)
      = Some (Message.mk (default (md_uuid4 data) (md_id data))
                (default "" (md_content data)) (Some role) (clock w) version).
Proof.
  intros Hv Hc Hid Hu Hfk Hrole Hr Hfresh.
  destruct (Conversation_save_ok false c w) as
    (c1 & w1 & Hsave & _ & _ & _ & _ & _ & _ & Hversions & Hmessages & Hclock
        & Hroles); [done|done|done|].
  unfold Message_objects_create, Message_save.
  cbv [bind Version_objects_get Conversation_objects_get query].
  cbn [Message.version]. rewrite Hv, Hc, Hsave.
  unfold Model_save_Message. cbv [bind now query require modify ret raise].
  cbn [Message.id Message.role Message.version].
  rewrite Hmessages, Hfresh, Hrole, Hclock.
  rewrite (bool_decide_false (is_Some None)) by (intros [? ?]; discriminate).
  cbn [orb andb negb fk_present Message.with_created_at Message.role
       Message.version Message.id].
  rewrite (bool_decide_true (is_Some (Some role))) by eauto.
  rewrite Hroles, (bool_decide_true _ Hr). cbn [andb].
  rewrite Hversions, Hv, (bool_decide_true (is_Some (Some v))) by eauto.
  cbn. eexists. split; [reflexivity|]. cbn.
  by rewrite Hmessages, lookup_insert_eq.
Qed.

(** C1, where the code departs from it: appending a message to the version
    [v31] stores the row and then raises [AttributeError] out of the receiver
    of [post_save], so the append does not return the message.  The provider
    is not reached. *)
Theorem append_raises_AttributeError :
  let data := mkMessageData None (Some "And the moon?") (Some 1) fresh in
  let out := Message_objects_create Message_conversation Conversation_messages
               failing v31 data two_threads in
  out.2 = Raise (AttributeError "Message" "conversation")
  ∧ Message.content <$> messages out.1 !! fresh = Some "And the moon?".
Proof. vm_compute. split; reflexivity. Qed.

(** Handed objects that answer to the attributes, the same append succeeds
    although the provider fails: the failure is absorbed by the service. *)
Example append_succeeds_when_the_attributes_resolve :
  let data := mkMessageData None (Some "And the moon?") (Some 1) fresh in
  let out := Message_objects_create through_version through_versions
               failing v31 data two_threads in
  is_ok out.2 = true
  ∧ Message.content <$> messages out.1 !! fresh = Some "And the moon?"
  ∧ Conversation.summary <$> conversations out.1 !! c31 = Some None.
Proof. vm_compute. repeat split; reflexivity. Qed.

(** [generate_summary] returns [None] for every [Conversation]: reading
    [conversation.messages] raises [AttributeError], which the handler of
    the function turns into [None]. *)
Lemma generate_summary_of_a_Conversation ChatCompletion_create conversation w :
  generate_summary Conversation_messages ChatCompletion_create conversation w
  = (w, Ok None).
Proof. reflexivity. Qed.

(** C4, where the code departs from it: the conversation [c31] has three
    messages and the provider answers with text, and [generate_summary]
    returns [None]. *)
Theorem generate_summary_returns_None_with_three_messages :
  let c := conversation c31 31 alice (Some v31) in
  match through_versions two_threads c with
  | Ok rows => length rows = 3%nat
  | Raise _ => False
  end
  ∧ generate_summary Conversation_messages
      (answering "The user asks about tides.") c two_threads
    = (two_threads, Ok None).
Proof. vm_compute. split; reflexivity. Qed.

(** [order_by_created_at] sorts: the rows are those it was given, in the
    order of [created_at]. *)
Lemma insert_by_created_at_perm m l : insert_by_created_at m l ≡ₚ m :: l.
Proof.
  induction l as [|x l IH]; cbn; [reflexivity|].
  destruct (_ <=? _); [reflexivity|]. rewrite IH. apply Permutation_swap.
Qed.

Lemma order_by_created_at_perm l : order_by_created_at l ≡ₚ l.
Proof.
  induction l as [|m l IH]; cbn; [reflexivity|].
  by rewrite insert_by_created_at_perm, IH.
Qed.

Lemma insert_by_created_at_sorted m l :
  StronglySorted (λ a b, Message.created_at a ≤ Message.created_at b) l →
  StronglySorted (λ a b, Message.created_at a ≤ Message.created_at b)
                 (insert_by_created_at m l).
Proof.
  induction 1 as [|x l Hsorted IH Hall]; cbn; [repeat constructor|].
  destruct (Z.leb_spec (Message.created_at m) (Message.created_at x))
    as [Hle|Hgt].
  - constructor; [by constructor|]. constructor; [exact Hle|].
    eapply Forall_impl; [exact Hall|]. intros y Hy. cbn in *. lia.
  - constructor; [exact IH|].
    rewrite insert_by_created_at_perm. constructor; [lia|exact Hall].
Qed.

Lemma order_by_created_at_sorted l :
  StronglySorted (λ a b, Message.created_at a ≤ Message.created_at b)
                 (order_by_created_at l).
Proof.
  induction l as [|m l IH]; cbn; [constructor|].
  by apply insert_by_created_at_sorted.
Qed.

(** Handed an object whose [messages] resolve, [generate_summary] does what
    its body says: nothing below three messages; otherwise the answer of the
    provider, stripped, for the transcript of the first ten messages in the
    order of [created_at]. *)
Lemma generate_summary_when_messages_resolve conversation_messages
    ChatCompletion_create conversation w rows :
  conversation_messages w conversation = Ok rows →
  (length rows < 3)%nat
  ∧ generate_summary conversation_messages ChatCompletion_create conversation w
    = (w, Ok None)
  ∨ (3 ≤ length rows)%nat
  ∧ ∀ context text others,
      transcript w (order_by_created_at rows) = Ok context →
      ChatCompletion_create (summary_request context)
      = Ok (Some text :: others) →
      generate_summary conversation_messages ChatCompletion_create
        conversation w = (w, Ok (Some (strip text))).
Proof.
  intros Hrows. cbv [generate_summary try_except bind query ret].
  rewrite Hrows. unfold ConversationSummaryService.MIN_MESSAGES_FOR_SUMMARY.
  destruct (Z.ltb_spec (Z.of_nat (length rows)) 3) as [Hlt|Hge].
  - left. split; [lia|reflexivity].
  - right. split; [lia|]. intros context text others Hcontext Hanswer.
    rewrite Hrows, Hcontext, Hanswer. reflexivity.
Qed.

Example generate_summary_reads_the_transcript :
  generate_summary through_versions echoing
    (conversation c31 31 alice (Some v31)) two_threads
  = (two_threads,
     Ok (Some ("Conversation to summarize:" +:+ newline +:+ newline
               +:+ "User: Hello" +:+ newline
               +:+ "Assistant: Hi, how can I help?" +:+ newline
               +:+ "User: Tell me about tides."))).
Proof. vm_compute. reflexivity. Qed.

(** ** C5: the cleanup *)

(** What [cleanup_old_conversations] returns is the number of rows deleted
    over all models. *)
Lemma cleanup_old_conversations_returns days w :
  ∃ d w',
    Conversation_queryset_delete
      (fun c => Conversation.created_at c <? clock w - timedelta_days days) w
    = (w', Ok (deleted_total d, d))
    ∧ cleanup_old_conversations days w
      = (w', Ok (deleted_conversations d + deleted_versions d
                 + deleted_messages d)).
Proof.
  unfold cleanup_old_conversations, bind, now, query, ret.
  unfold Conversation_queryset_delete. eexists _, _. split; reflexivity.
Qed.

(** C5, where the code departs from it: one conversation, 31 days old, with
    one version and one message; the cleanup with a cutoff of 30 days deletes
    this one conversation and returns 3. *)
Theorem cleanup_counts_the_cascade :
  let out := cleanup_old_conversations 30 one_thread in
  size (conversations one_thread) = 1%nat
  ∧ conversations out.1 = ∅
  ∧ versions out.1 = ∅
  ∧ messages out.1 = ∅
  ∧ out.2 = Ok 3.
Proof. vm_compute. repeat split; reflexivity. Qed.

(** Without versions and messages the count is that of the conversations:
    of three conversations 10, 31 and 60 days old the cleanup with a cutoff of
    30 days deletes the two older ones and returns 2. *)
Example cleanup_of_three_conversations :
  let out := cleanup_old_conversations 30 three_conversations in
  dom (conversations out.1) = {[ c10 ]}
  ∧ out.2 = Ok 2.
Proof. vm_compute. split; reflexivity. Qed.

(** The command restricted to an owner: of the two conversations older than
    30 days only the one of [bob] is deleted. *)
Example command_for_one_owner :
  let out := handle Conversation_messages (mkOptions 30 false (Some "bob"))
               "YES" three_conversations in
  dom (conversations out.1) = {[ c10; c31 ]}
  ∧ stdout out.1
    = [ "Conversations to delete: 1" +:+ newline;
        "Delete 1 conversations? (yes/no): ";
        "✓ Deleted 1 conversations" ].
Proof. vm_compute. split; reflexivity. Qed.

(** A conversation whose active version belongs to an older conversation is
    deleted with it, whatever its own age. *)
Example cleanup_follows_the_active_version :
  let w := (ConversationSerializer_update Message_conversation
              Conversation_messages failing
              (conversation c10 10 alice None)
              (mkConversationData None (Some (Some v60)) None [] fresh)
              (set_conversations
                 (<[c10 := conversation c10 10 alice None]>
                    (conversations two_threads)) two_threads)).1 in
  let out := cleanup_old_conversations 30 w in
  dom (conversations w) = {[ c10; c31; c60 ]}
  ∧ conversations out.1 = ∅.
Proof. vm_compute. split; reflexivity. Qed.

(** ** C6: uploads of the same content *)

Section Duplicates.
Variable sha256_hexdigest : string -> string.

(** A digest is 64 hexadecimal digits. *)
Hypothesis digest_length :
  ∀ data, String.length (sha256_hexdigest data) = 64%nat.

Lemma digest_not_empty data : String.eqb (sha256_hexdigest data) "" = false.
Proof.
  apply String.eqb_neq. intros Hempty.
  pose proof (digest_length data) as Hlen. rewrite Hempty in Hlen.
  discriminate.
Qed.

Lemma file_hash_exists_false file_hash w :
  file_hash_exists file_hash w = false →
  ∀ k row, uploaded_files w !! k = Some row →
           UploadedFile.file_hash row ≠ file_hash.
Proof.
  unfold file_hash_exists. intros Hnone k row Hrow Hhash.
  apply bool_decide_eq_false in Hnone. apply Hnone. intros Hempty.
  assert (filter (λ kv, UploadedFile.file_hash kv.2 = file_hash)
                 (uploaded_files w) !! k = Some row) as Hin
    by (by apply map_lookup_filter_Some).
  rewrite Hempty, lookup_empty in Hin. discriminate.
Qed.

Lemma file_hash_exists_true file_hash w k row :
  uploaded_files w !! k = Some row →
  UploadedFile.file_hash row = file_hash →
  file_hash_exists file_hash w = true.
Proof.
  intros Hrow Hhash. unfold file_hash_exists.
  apply bool_decide_eq_true. intros Hempty.
  assert (filter (λ kv, UploadedFile.file_hash kv.2 = file_hash)
                 (uploaded_files w) !! k = Some row) as Hin
    by (by apply map_lookup_filter_Some).
  rewrite Hempty, lookup_empty in Hin. discriminate.
Qed.

Lemma file_hash_exists_delete file_hash k w :
  file_hash_exists file_hash w = false →
  file_hash_exists file_hash
    (set_uploaded_files (delete k (uploaded_files w)) w) = false.
Proof.
  intros Hnone. destruct (file_hash_exists _ (set_uploaded_files _ _)) eqn:Hsome;
    [|reflexivity].
  unfold file_hash_exists in Hsome. apply bool_decide_eq_true in Hsome.
  destruct (map_choose _ Hsome) as (k' & row & Hin).
  apply map_lookup_filter_Some in Hin as [Hrow Hhash]. cbn in Hrow.
  apply lookup_delete_Some in Hrow as [_ Hrow].
  by destruct (file_hash_exists_false _ _ Hnone _ _ Hrow).
Qed.

(** A save never replaces a hash that is there: the hash is computed when the
    instance has none, which is at creation. *)
Lemma UploadedFile_save_keeps_hash adding self w :
  UploadedFile.file_hash self ≠ "" →
  match UploadedFile_save sha256_hexdigest adding self w with
  | (w', Ok row) =>
      UploadedFile.file_hash row = UploadedFile.file_hash self
      ∧ uploaded_files w' !! UploadedFile.id self = Some row
  | (w', Raise _) => w' = w
  end.
Proof.
  intros Hhash. apply String.eqb_neq in Hhash.
  unfold UploadedFile_save. rewrite Hhash, andb_false_r.
  cbv [bind now query require modify ret].
  destruct (adding || _); cbn;
    repeat (match goal with
            | |- context [if ?b then _ else _] => destruct b; cbn
            end); try reflexivity;
    (split; [reflexivity| by rewrite lookup_insert_eq]).
Qed.

(** C6: the first upload of a content succeeds and stores its digest, which
    can then be found; every later upload of the same bytes, under any name,
    by any user, is rejected by [validate_file] with the world as it was; and
    no later save of a record replaces its digest. *)
Theorem duplicate_upload_is_rejected user pk conversation f w :
  file_name f ≠ "" →
  is_Some (users w !! user) →
  fk_present (conversations w) conversation = true →
  uploaded_files w !! pk = None →
  file_hash_exists (calculate_file_hash sha256_hexdigest f) w = false →
  ∃ row w1,
    upload sha256_hexdigest user pk conversation f w = (w1, Ok row)
    ∧ uploaded_files w1 !! pk = Some row
    ∧ UploadedFile.file_hash row = sha256_hexdigest (file_bytes f)
    ∧ file_hash_exists (sha256_hexdigest (file_bytes f)) w1 = true
    ∧ (∀ user' pk' conversation' f',
         file_bytes f' = file_bytes f →
         upload sha256_hexdigest user' pk' conversation' f' w1
         = (w1, Raise (SerializerValidationError
                         "A file with the same content has already been uploaded.")))
    ∧ (∀ adding self w2,
         UploadedFile.file_hash self = UploadedFile.file_hash row →
         match UploadedFile_save sha256_hexdigest adding self w2 with
         | (w3, Ok row') =>
             UploadedFile.file_hash row' = UploadedFile.file_hash row
             ∧ uploaded_files w3 !! UploadedFile.id self = Some row'
         | (w3, Raise _) => w3 = w2
         end).
Proof.
  intros Hname Huser Hconversation Hfresh Hfirst.
  apply String.eqb_neq in Hname.
  pose proof (file_hash_exists_delete _ pk _ Hfirst) as Hunique.
  unfold calculate_file_hash in Hfirst, Hunique.
  unfold upload, validate_file, calculate_file_hash.
  cbv [bind query ret raise]. rewrite Hfirst.
  unfold UploadedFileSerializer_create.
  cbn [ud_file ud_user ud_conversation ud_uuid4 ud_filename ud_file_size
       ud_file_type].
  unfold file_truthy at 1. rewrite Hname. cbn [negb].
  unfold UploadedFile_objects_create.
  cbn [ud_file ud_user ud_conversation ud_uuid4 ud_filename ud_file_size
       ud_file_type default from_option id].
  unfold UploadedFile_save.
  cbn [UploadedFile.file UploadedFile.file_hash UploadedFile.id].
  unfold file_truthy, calculate_file_hash. rewrite Hname.
  cbn [negb andb String.eqb].
  cbv [bind now query require modify ret raise].
  cbn [UploadedFile.with_file_hash UploadedFile.with_uploaded_at
       UploadedFile.id UploadedFile.file_hash UploadedFile.user
       UploadedFile.conversation].
  rewrite Hfresh.
  rewrite (bool_decide_false (is_Some None)) by (intros [? ?]; discriminate).
  cbn [orb andb negb UploadedFile.with_file_hash UploadedFile.with_uploaded_at
       UploadedFile.id UploadedFile.file_hash UploadedFile.user
       UploadedFile.conversation].
  rewrite Hunique. cbn [negb].
  unfold fk_present at 1. rewrite (bool_decide_true _ Huser), Hconversation.
  cbn [andb].
  eexists _, _. split; [reflexivity|].
  cbn [uploaded_files set_uploaded_files]. rewrite lookup_insert_eq.
  split; [reflexivity|]. split; [reflexivity|].
  split; [|split].
  - eapply file_hash_exists_true; [apply lookup_insert_eq|reflexivity].
  - intros user' pk' conversation' f' Hsame.
    unfold upload, validate_file, calculate_file_hash.
    cbv [bind query ret raise]. rewrite Hsame.
    erewrite file_hash_exists_true;
      [reflexivity|apply lookup_insert_eq|reflexivity].
  - intros adding self w2 Hsame.
    assert (UploadedFile.file_hash self ≠ "") as Hne.
    { rewrite Hsame. cbn. intros Hempty.
      pose proof (digest_length (file_bytes f)) as Hlen.
      rewrite Hempty in Hlen. discriminate. }
    pose proof (UploadedFile_save_keeps_hash adding self w2 Hne) as Hkeep.
    rewrite Hsame in Hkeep. exact Hkeep.
Qed.
End Duplicates.

Lemma substring_prefix_length n s :
  (n ≤ String.length s)%nat → String.length (String.substring 0 n s) = n.
Proof.
  revert s. induction n as [|n IH]; intros s Hle.
  - by destruct s.
  - destruct s as [|c s]; cbn in *; [lia|]. rewrite IH; [reflexivity|lia].
Qed.

Lemma append_length s t :
  String.length (s +:+ t) = (String.length s + String.length t)%nat.
Proof.
  induction s as [|c s IH]; [reflexivity|].
  change (S (String.length (s +:+ t))
          = S (String.length s + String.length t)).
  by rewrite IH.
Qed.

Lemma toy_digest_length data : String.length (toy_digest data) = 64%nat.
Proof.
  unfold toy_digest. apply substring_prefix_length.
  rewrite append_length. cbn. lia.
Qed.

Lemma duplicate_upload_is_rejected_witness :
  (∀ data, String.length (toy_digest data) = 64%nat)
  ∧ file_name report ≠ ""
  ∧ is_Some (users two_threads !! alice)
  ∧ fk_present (conversations two_threads) (Some c31) = true
  ∧ uploaded_files two_threads !! fresh = None
  ∧ file_hash_exists (calculate_file_hash toy_digest report) two_threads = false
  ∧ ∃ row w1,
      upload toy_digest alice fresh (Some c31) report two_threads = (w1, Ok row)
      ∧ uploaded_files w1 !! fresh = Some row
      ∧ UploadedFile.file_hash row = toy_digest (file_bytes report)
      ∧ file_hash_exists (toy_digest (file_bytes report)) w1 = true
      ∧ (∀ user' pk' conversation' f',
           file_bytes f' = file_bytes report →
           upload toy_digest user' pk' conversation' f' w1
           = (w1, Raise (SerializerValidationError
                           "A file with the same content has already been uploaded.")))
      ∧ (∀ adding self w2,
           UploadedFile.file_hash self = UploadedFile.file_hash row →
           match UploadedFile_save toy_digest adding self w2 with
           | (w3, Ok row') =>
               UploadedFile.file_hash row' = UploadedFile.file_hash row
               ∧ uploaded_files w3 !! UploadedFile.id self = Some row'
           | (w3, Raise _) => w3 = w2
           end).
Proof.
  split; [exact toy_digest_length|].
  split; [discriminate|]. split; [by eexists|]. split; [reflexivity|].
  split; [reflexivity|]. split; [vm_compute; reflexivity|].
  apply (duplicate_upload_is_rejected toy_digest toy_digest_length);
    [discriminate | by eexists | reflexivity | reflexivity
    | vm_compute; reflexivity].
Defined.

(** The two uploads, run: [copy.pdf] has the bytes of [report.pdf]. *)
Example second_upload_is_rejected :
  let first := upload toy_digest alice fresh (Some c31) report two_threads in
  let second := upload toy_digest bob m4 None copy_of_report first.1 in
  is_ok first.2 = true
  ∧ UploadedFile.status <$> uploaded_files first.1 !! fresh = Some "pending"
  ∧ UploadedFile.file_type <$> uploaded_files first.1 !! fresh = Some "pdf"
  ∧ second.2 = Raise (SerializerValidationError
                        "A file with the same content has already been uploaded.")
  ∧ uploaded_files second.1 !! m4 = None.
Proof. vm_compute. repeat split; reflexivity. Qed.

(** ** C2: the ownership of the active version *)

Lemma consistent_same_tables w w' :
  conversations w' = conversations w → versions w' = versions w →
  consistent w → consistent w'.
Proof.
  intros Hc Hv [[Hkc Hkv] Hown]. unfold consistent, keyed, active_version_owned.
  rewrite Hc, Hv. auto.
Qed.

Lemma consistent_put_conversation w w' c :
  consistent w →
  versions w' = versions w →
  conversations w' = <[Conversation.id c := c]> (conversations w) →
  active_ok w c →
  consistent w'.
Proof.
  intros [[Hkc Hkv] Hown] Hv Hc Hok.
  unfold consistent, keyed, active_version_owned. rewrite Hc, Hv.
  split; [split; [|exact Hkv]|].
  - intros k c0 [[<- <-]|[_ Hold]]%lookup_insert_Some; eauto.
  - intros k c0 vid [[<- <-]|[_ Hold]]%lookup_insert_Some Hactive; eauto.
Qed.

Lemma consistent_put_version w w' v :
  consistent w →
  conversations w' = conversations w →
  versions w' = <[Version.id v := v]> (versions w) →
  stays_put w v →
  consistent w'.
Proof.
  intros [[Hkc Hkv] Hown] Hc Hv Hstay.
  unfold consistent, keyed, active_version_owned. rewrite Hc, Hv.
  split; [split; [exact Hkc|]|].
  - intros k v0 [[<- <-]|[_ Hold]]%lookup_insert_Some; eauto.
  - intros k c vid Hrow Hactive.
    destruct (Hown k c vid Hrow Hactive) as (v0 & Hv0 & Hconv).
    destruct (decide (vid = Version.id v)) as [->|Hne].
    + exists v. rewrite lookup_insert_eq. split; [reflexivity|].
      rewrite <- (Hstay v0 Hv0). exact Hconv.
    + exists v0. by rewrite lookup_insert_ne.
Qed.

Lemma for_each_consistent {A} (l : list A) (body : A → M unit) :
  (∀ x w, consistent w → consistent (body x w).1) →
  ∀ w, consistent w → consistent (for_each l body w).1.
Proof.
  intros Hbody. induction l as [|x l IH]; intros w Hw; [exact Hw|].
  cbn. unfold bind. specialize (Hbody x w Hw).
  destruct (body x w) as [w' [[]|e]]; [|exact Hbody]. by apply IH.
Qed.

Lemma bind_consistent {A B} (m : M A) (k : A → M B) w :
  consistent (m w).1 →
  (∀ a w', consistent w' → consistent (k a w').1) →
  consistent (bind m k w).1.
Proof.
  intros Hm Hk. unfold bind.
  destruct (m w) as [w' [a|e]]; [by apply Hk|exact Hm].
Qed.

(** What a save of a conversation does to the world. *)
Lemma Conversation_save_shape adding self w :
  (Conversation_save adding self w).1 = w
  ∨ ∃ c, conversations (Conversation_save adding self w).1
         = <[Conversation.id c := c]> (conversations w)
       ∧ versions (Conversation_save adding self w).1 = versions w
       ∧ Conversation.id c = Conversation.id self
       ∧ Conversation.active_version c = Conversation.active_version self.
Proof.
  unfold Conversation_save, bind, now, query, require, modify.
  cbv zeta. destruct (negb _); [|left; reflexivity].
  destruct (adding || _) eqn:Hcreated; cbn;
    (destruct (bool_decide (is_Some (users w !! _))); cbn;
       [|left; reflexivity]);
    (destruct (fk_present _ _); cbn; [|left; reflexivity]); right.
  - eexists (Conversation.with_is_summary_stale true
               (Conversation.with_modified_at (clock w)
                  (Conversation.with_created_at (clock w) self))).
    split; [|repeat split]. cbn.
    apply map_eq. intros k.
    destruct (decide (k = Conversation.id self)) as [->|].
    + by rewrite lookup_alter_eq, !lookup_insert_eq.
    + by rewrite lookup_alter_ne, !lookup_insert_ne.
  - eexists (Conversation.with_modified_at (clock w) self).
    split; [reflexivity|]. repeat split.
Qed.

Lemma Conversation_save_consistent adding self w :
  consistent w → active_ok w self →
  consistent (Conversation_save adding self w).1.
Proof.
  intros Hw Hok.
  destruct (Conversation_save_shape adding self w)
    as [->|(c & Hc & Hv & Hid & Hactive)]; [exact Hw|].
  apply (consistent_put_conversation w _ c Hw Hv Hc).
  intros vid Hvid. rewrite Hid. apply Hok. congruence.
Qed.

Lemma stored_conversation_active_ok w k c :
  consistent w → conversations w !! k = Some c → active_ok w c.
Proof. intros [_ Hown] Hrow vid Hactive. eauto. Qed.

Lemma active_version_owned_test w :
  active_version_owned w
  ↔ map_Forall (λ _ c, owns_active_version w c = true) (conversations w).
Proof.
  unfold active_version_owned, map_Forall, owns_active_version. split.
  - intros Hown k c Hrow.
    destruct (Conversation.active_version c) as [vid|] eqn:Hactive;
      [|reflexivity].
    destruct (Hown k c vid Hrow Hactive) as (v & -> & Hconversation).
    by apply String.eqb_eq.
  - intros Htest k c vid Hrow Hactive. specialize (Htest k c Hrow).
    rewrite Hactive in Htest.
    destruct (versions w !! vid) as [v|]; [|discriminate].
    exists v. split; [reflexivity|]. by apply String.eqb_eq.
Qed.

(** In a consistent world a delete takes no conversation with it other than
    those it was asked to delete. *)
Lemma conversations_on_versions_of w cs :
  consistent w → conversations_on w (versions_of w cs) ⊆ cs.
Proof.
  intros [[Hkc Hkv] Hown] k Hk.
  unfold conversations_on in Hk. apply elem_of_dom in Hk as [c Hc].
  apply map_lookup_filter_Some in Hc as [Hrow Hrefers]. cbn in Hrefers.
  destruct (Conversation.active_version c) as [vid|] eqn:Hactive;
    [|done].
  cbn in Hrefers. apply bool_decide_unpack in Hrefers.
  unfold versions_of in Hrefers. apply elem_of_dom in Hrefers as [v Hv].
  apply map_lookup_filter_Some in Hv as [Hv Hin]. cbn in Hin.
  apply bool_decide_unpack in Hin.
  destruct (Hown k c vid Hrow Hactive) as (v' & Hv' & Hconversation).
  rewrite Hv in Hv'. injection Hv' as <-.
  rewrite Hconversation, (Hkc _ _ Hrow) in Hin. exact Hin.
Qed.

Lemma collect_consistent fuel w cs :
  consistent w → collect fuel w cs = cs.
Proof.
  intros Hw. revert cs. induction fuel as [|fuel IH]; intros cs;
    [reflexivity|].
  cbn. rewrite IH. unfold collect_step.
  rewrite (comm_L (∪)). apply subseteq_union_1_L.
  by apply conversations_on_versions_of.
Qed.

Lemma Conversation_queryset_delete_consistent selected w :
  consistent w →
  consistent (Conversation_queryset_delete selected w).1.
Proof.
  intros Hw. pose proof Hw as [[Hkc Hkv] Hown].
  unfold Conversation_queryset_delete, collect_conversations. cbn.
  rewrite collect_consistent by exact Hw.
  set (cs := matching selected w). set (vs := versions_of w cs).
  split; [split|]; cbn.
  - intros k c [Hrow _]%map_lookup_filter_Some. eauto.
  - intros k v (v0 & <- & [Hrow _]%map_lookup_filter_Some)%lookup_fmap_Some.
    cbn. eauto.
  - intros k c vid [Hrow Hkept]%map_lookup_filter_Some Hactive.
    cbn in Hkept.
    destruct (Hown k c vid Hrow Hactive) as (v & Hv & Hconversation).
    assert (filter (λ kv, kv.1 ∉ vs) (versions w) !! vid = Some v)
      as Hfiltered.
    { apply map_lookup_filter_Some. split; [exact Hv|]. cbn.
      intros Hin. apply Hkept. unfold vs, versions_of in Hin.
      apply elem_of_dom in Hin as [v' Hv'].
      apply map_lookup_filter_Some in Hv' as [Hv' Hrefers]. cbn in Hrefers.
      apply bool_decide_unpack in Hrefers.
      rewrite Hv in Hv'. injection Hv' as <-.
      by rewrite Hconversation, (Hkc _ _ Hrow) in Hrefers. }
    eexists. split;
      [cbn [versions]; by rewrite lookup_fmap, Hfiltered|exact Hconversation].
Qed.

Section Invariant.
Variable instance_conversation :
  World -> Message.t -> result (option Conversation.t).
Variable conversation_messages :
  World -> Conversation.t -> result (list Message.t).
Variable ChatCompletion_create : ChatRequest -> result ChatResponse.

Lemma Conversation_save_update_fields_consistent fields self w :
  "active_version" ∉ fields →
  consistent w →
  consistent (Conversation_save_update_fields fields self w).1.
Proof.
  intros Hfields Hw.
  pose proof (Conversation_save_update_fields_spec fields self w) as Hsave.
  destruct (conversations w !! Conversation.id self) as [row|] eqn:Hrow;
    rewrite Hsave; [|exact Hw].
  pose proof Hw as [[Hkc _] _]. pose proof (Hkc _ _ Hrow) as Hid.
  apply (consistent_put_conversation w _
           (assign_fields fields (clock w) self row) Hw);
    [reflexivity|cbn; by rewrite Hid|].
  intros vid Hactive. cbn in Hactive.
  rewrite bool_decide_false in Hactive by exact Hfields.
  exact (stored_conversation_active_ok w _ row Hw Hrow vid Hactive).
Qed.

Lemma summary_fields_spare_active_version :
  "active_version" ∉ ["summary"; "summary_generated_at"; "is_summary_stale"].
Proof. apply (bool_decide_eq_false_1 _). vm_compute. reflexivity. Qed.

Lemma update_conversation_summary_consistent conversation w :
  consistent w →
  consistent (update_conversation_summary conversation_messages
                ChatCompletion_create conversation w).1.
Proof.
  intros Hw. unfold update_conversation_summary.
  destruct (generate_summary_returns conversation_messages
              ChatCompletion_create conversation w) as (summary & Hgen & _).
  unfold try_except at 1. unfold bind at 1. rewrite Hgen.
  destruct (truthy summary); [|exact Hw].
  unfold bind at 1, now, query. unfold try_except, bind.
  match goal with
  | |- context [Conversation_save_update_fields ?fs ?c0 w] =>
      pose proof (Conversation_save_update_fields_consistent fs c0 w
                    summary_fields_spare_active_version Hw) as Hsaved;
      destruct (Conversation_save_update_fields fs c0 w) as [w1 [r|e]];
      exact Hsaved
  end.
Qed.

Lemma regenerate_summary_consistent instance created w :
  consistent w →
  consistent (regenerate_summary_on_message_save instance_conversation
                conversation_messages ChatCompletion_create instance created
                w).1.
Proof.
  intros Hw. unfold regenerate_summary_on_message_save.
  destruct created; [|exact Hw]. cbv [bind query].
  destruct (instance_conversation w instance) as [[conversation|]|e];
    try exact Hw.
  destruct (conversation_messages w conversation) as [rows|e]; try exact Hw.
  destruct (_ <=? _); [|exact Hw].
  pose proof (update_conversation_summary_consistent conversation w Hw)
    as Hkeep.
  destruct (update_conversation_summary _ _ _ _) as [w' [r|e]]; exact Hkeep.
Qed.

Lemma Model_save_Message_consistent adding self w :
  consistent w →
  consistent (Model_save_Message instance_conversation conversation_messages
                ChatCompletion_create adding self w).1.
Proof.
  intros Hw. unfold Model_save_Message. cbv [bind now query require modify].
  destruct (negb _); cbn; [|exact Hw].
  destruct (_ && _); cbn; [|exact Hw].
  destruct (bool_decide _); cbn; [|exact Hw].
  unfold post_save_Message, signals_connected.
  match goal with
  | |- context [regenerate_summary_on_message_save _ _ _ ?i ?c ?w0] =>
      assert (consistent w0) as Hw0
        by (by apply (consistent_same_tables w));
      pose proof (regenerate_summary_consistent i c w0 Hw0) as Hkeep;
      destruct (regenerate_summary_on_message_save _ _ _ i c w0)
        as [w' [r|e]]; exact Hkeep
  end.
Qed.

Lemma Message_save_consistent adding self w :
  consistent w →
  consistent (Message_save instance_conversation conversation_messages
                ChatCompletion_create adding self w).1.
Proof.
  intros Hw. unfold Message_save.
  cbv [bind Version_objects_get Conversation_objects_get query].
  destruct (versions w !! Message.version self) as [v|]; [|exact Hw].
  destruct (conversations w !! Version.conversation v) as [c|] eqn:Hc;
    [|exact Hw].
  pose proof (Conversation_save_consistent false c w Hw
                (stored_conversation_active_ok w _ c Hw Hc)) as Hsaved.
  destruct (Conversation_save false c w) as [w1 [c1|e]]; [|exact Hsaved].
  by apply Model_save_Message_consistent.
Qed.

Lemma upsert_message_consistent instance message_data w :
  consistent w →
  consistent (upsert_message instance_conversation conversation_messages
                ChatCompletion_create instance message_data w).1.
Proof.
  intros Hw. unfold upsert_message, Message_objects_create.
  destruct (md_id message_data) as [id|].
  - cbv [bind Message_objects_get query].
    destruct (messages w !! id) as [m|]; [|exact Hw].
    destruct (String.eqb _ _); [|exact Hw].
    match goal with
    | |- context [Message_save _ _ _ ?a ?m0 w] =>
        pose proof (Message_save_consistent a m0 w Hw) as Hsaved;
        destruct (Message_save _ _ _ a m0 w) as [w1 [r|e]]; exact Hsaved
    end.
  - unfold bind.
    match goal with
    | |- context [Message_save _ _ _ ?a ?m0 w] =>
        pose proof (Message_save_consistent a m0 w Hw) as Hsaved;
        destruct (Message_save _ _ _ a m0 w) as [w1 [r|e]]; exact Hsaved
    end.
Qed.

Lemma Version_save_shape adding self w :
  (Version_save adding self w).1 = w
  ∨ (Version_save adding self w
     = (set_versions (<[Version.id self := self]> (versions w)) w, Ok self)
     ∧ (adding = true → versions w !! Version.id self = None)).
Proof.
  unfold Version_save. cbv [bind query require modify ret raise].
  destruct (bool_decide (is_Some (versions w !! Version.id self))) eqn:Hpresent.
  - destruct adding; cbn; [left; reflexivity|].
    destruct (_ && _); cbn; [|left; reflexivity].
    right. split; [reflexivity|discriminate].
  - rewrite andb_false_r. cbn.
    destruct (_ && _); cbn; [|left; reflexivity].
    right. split; [reflexivity|]. intros _.
    apply bool_decide_eq_false in Hpresent.
    by apply eq_None_not_Some.
Qed.

Lemma Version_save_consistent adding self w :
  consistent w →
  (adding = false → stays_put w self) →
  consistent (Version_save adding self w).1.
Proof.
  intros Hw Hstay.
  destruct (Version_save_shape adding self w) as [->|[-> Hfresh]];
    [exact Hw|].
  apply (consistent_put_version w _ self Hw); [reflexivity|reflexivity|].
  destruct adding; [|by apply Hstay].
  intros v0 Hv0. rewrite Hfresh in Hv0 by reflexivity. discriminate.
Qed.

Lemma Message_objects_create_consistent version data w :
  consistent w →
  consistent (Message_objects_create instance_conversation
                conversation_messages ChatCompletion_create version data w).1.
Proof. intros Hw. by apply Message_save_consistent. Qed.

Lemma VersionSerializer_create_consistent validated_data w :
  consistent w →
  consistent (VersionSerializer_create instance_conversation
                conversation_messages ChatCompletion_create validated_data
                w).1.
Proof.
  intros Hw. unfold VersionSerializer_create, Version_objects_create.
  apply bind_consistent.
  - destruct (dict_get (vd_conversation validated_data) None); [|exact Hw].
    apply Version_save_consistent; [exact Hw|discriminate].
  - intros version w1 Hw1. apply bind_consistent; [|by intros].
    apply for_each_consistent; [|exact Hw1].
    intros message_data w2 Hw2. apply bind_consistent; [|by intros].
    by apply Message_objects_create_consistent.
Qed.

(** An update of a version keeps the world consistent when it leaves the
    version with its conversation. *)
Lemma VersionSerializer_update_consistent instance validated_data w :
  consistent w →
  (∀ v0, versions w !! Version.id instance = Some v0 →
         Version.conversation v0 = Version.conversation instance
         ∧ ∀ c, vd_conversation validated_data = Some (Some c) →
                c = Version.conversation v0) →
  consistent (VersionSerializer_update instance_conversation
                conversation_messages ChatCompletion_create instance
                validated_data w).1.
Proof.
  intros Hw Hsame. unfold VersionSerializer_update.
  destruct (negb _); [exact Hw|].
  unfold bind at 1.
  set (saved := match dict_get (vd_conversation validated_data)
                        (Some (Version.conversation instance)) with
                | Some conversation => _
                | None => _
                end).
  assert (consistent (saved w).1) as Hsaved.
  { subst saved.
    destruct (dict_get _ _) as [conversation|] eqn:Hconversation;
      [|exact Hw].
    apply Version_save_consistent; [exact Hw|]. intros _ v0 Hv0. cbn in Hv0.
    destruct (Hsame v0 Hv0) as [Hinstance Hdata]. cbn.
    destruct (vd_conversation validated_data) as [[c|]|]; cbn in Hconversation.
    - injection Hconversation as <-. symmetry. by apply Hdata.
    - discriminate.
    - congruence. }
  destruct (saved w) as [w1 [instance1|e]]; [|exact Hsaved].
  unfold bind.
  pose proof (for_each_consistent (vd_messages validated_data)
                (upsert_message instance_conversation conversation_messages
                   ChatCompletion_create (Version.id instance1))
                (λ x w0 Hw0, upsert_message_consistent _ x w0 Hw0)
                w1 Hsaved) as Hloop.
  destruct (for_each _ _ w1) as [w2 [[]|e]]; exact Hloop.
Qed.

Lemma ConversationSerializer_create_consistent validated_data w :
  consistent w →
  dict_get (cd_active_version validated_data) None = None →
  consistent (ConversationSerializer_create instance_conversation
                conversation_messages ChatCompletion_create validated_data
                w).1.
Proof.
  intros Hw Hnone. unfold ConversationSerializer_create.
  apply bind_consistent.
  - unfold Conversation_objects_create.
    destruct (cd_user validated_data) as [user|]; [|exact Hw].
    apply Conversation_save_consistent; [exact Hw|].
    intros vid Hactive. cbn in Hactive. congruence.
  - intros conversation w1 Hw1. apply bind_consistent; [|by intros].
    apply for_each_consistent; [|exact Hw1].
    intros version_data w2 Hw2.
    destruct (vd_is_valid version_data); [|exact Hw2].
    apply bind_consistent; [|by intros].
    by apply VersionSerializer_create_consistent.
Qed.

Lemma upsert_version_consistent conversation version_data w :
  consistent w →
  consistent
    (match vd_id version_data with
     | Some id =>
         let* version := Version_objects_get_in id conversation in
         if vd_is_valid version_data then
           let* _ := VersionSerializer_update instance_conversation
                       conversation_messages ChatCompletion_create version
                       (with_conversation_kw conversation version_data) in
           ret tt
         else ret tt
     | None =>
         if vd_is_valid version_data then
           let* _ := VersionSerializer_create instance_conversation
                       conversation_messages ChatCompletion_create
                       (with_conversation_kw conversation version_data) in
           ret tt
         else ret tt
     end w).1.
Proof.
  intros Hw. destruct (vd_id version_data) as [id|].
  - unfold bind at 1, Version_objects_get_in, query.
    destruct (versions w !! id) as [v|] eqn:Hv; [|exact Hw].
    destruct (String.eqb_spec (Version.conversation v) conversation)
      as [Hconversation|]; [|exact Hw].
    destruct (vd_is_valid version_data); [|exact Hw].
    apply bind_consistent; [|by intros].
    apply VersionSerializer_update_consistent; [exact Hw|].
    pose proof Hw as [[_ Hkv] _]. rewrite (Hkv _ _ Hv).
    intros v0 Hv0. rewrite Hv in Hv0. injection Hv0 as <-.
    split; [reflexivity|]. cbn. congruence.
  - destruct (vd_is_valid version_data); [|exact Hw].
    apply bind_consistent; [|by intros].
    by apply VersionSerializer_create_consistent.
Qed.

Lemma ConversationSerializer_update_consistent instance validated_data w :
  consistent w →
  conversations w !! Conversation.id instance = Some instance →
  (∀ vid, cd_active_version validated_data = Some (Some vid) →
          ∃ v, versions w !! vid = Some v
               ∧ Version.conversation v = Conversation.id instance) →
  consistent (ConversationSerializer_update instance_conversation
                conversation_messages ChatCompletion_create instance
                validated_data w).1.
Proof.
  intros Hw Hstored Hguard. unfold ConversationSerializer_update.
  pose proof (stored_conversation_active_ok w _ instance Hw Hstored) as Hown.
  pose proof Hw as [[_ Hkv] _].
  unfold bind at 1.
  change (Conversation.active_version (Conversation.with_title _ instance))
    with (Conversation.active_version instance).
  destruct (dict_get (cd_active_version validated_data)
              (Conversation.active_version instance)) as [vid|] eqn:Hvid.
  - cbv [bind Version_objects_get query ret].
    destruct (versions w !! vid) as [v|] eqn:Hv; [|exact Hw].
    rewrite (Hkv _ _ Hv).
    apply (bind_consistent (Conversation_save false _)).
    + apply Conversation_save_consistent; [exact Hw|].
      intros vid' [= <-]. cbn.
      destruct (cd_active_version validated_data) as [[vid'|]|];
        cbn in Hvid.
      * injection Hvid as ->. by apply Hguard.
      * discriminate.
      * by apply Hown.
    + intros instance1 w1 Hw1. apply bind_consistent; [|by intros].
      apply for_each_consistent; [|exact Hw1].
      intros version_data w2 Hw2. by apply upsert_version_consistent.
  - cbv [ret]. apply (bind_consistent (Conversation_save false _)).
    + apply Conversation_save_consistent; [exact Hw|].
      intros vid' Hactive. cbn in Hactive. by apply Hown.
    + intros instance1 w1 Hw1. apply bind_consistent; [|by intros].
      apply for_each_consistent; [|exact Hw1].
      intros version_data w2 Hw2. by apply upsert_version_consistent.
Qed.

(** Every mutation that respects ownership keeps the world consistent. *)
Lemma apply_consistent op w :
  consistent w →
  respects_ownership w op →
  consistent (apply instance_conversation conversation_messages
                ChatCompletion_create op w).1.
Proof.
  intros Hw Hop. pose proof Hw as [[Hkc Hkv] _].
  destruct op as [data|id data|data|id data|version data|version data|days
                 |seconds]; cbn [apply respects_ownership] in *.
  - apply bind_consistent; [|by intros].
    by apply ConversationSerializer_create_consistent.
  - unfold bind at 1, Conversation_objects_get, query.
    destruct (conversations w !! id) as [instance|] eqn:Hrow; [|exact Hw].
    pose proof (Hkc _ _ Hrow) as Hid.
    apply bind_consistent; [|by intros].
    apply ConversationSerializer_update_consistent;
      [exact Hw|by rewrite Hid|by rewrite Hid].
  - apply bind_consistent; [|by intros].
    by apply VersionSerializer_create_consistent.
  - unfold bind at 1, Version_objects_get, query.
    destruct (versions w !! id) as [instance|] eqn:Hrow; [|exact Hw].
    pose proof (Hkv _ _ Hrow) as Hid.
    apply bind_consistent; [|by intros].
    apply VersionSerializer_update_consistent; [exact Hw|].
    rewrite Hid. intros v0 Hv0. rewrite Hrow in Hv0. injection Hv0 as <-.
    split; [reflexivity|]. intros c Hc.
    destruct (Hop c Hc) as (v & Hv & <-). congruence.
  - apply bind_consistent; [|by intros].
    by apply Message_objects_create_consistent.
  - by apply upsert_message_consistent.
  - apply bind_consistent; [|by intros].
    unfold cleanup_old_conversations. apply bind_consistent; [exact Hw|].
    intros t w1 Hw1. apply bind_consistent; [|by intros [? ?]].
    by apply Conversation_queryset_delete_consistent.
  - exact Hw.
Qed.

Lemma run_consistent ops w :
  consistent w →
  scoped instance_conversation conversation_messages ChatCompletion_create
    ops w →
  consistent (run instance_conversation conversation_messages
                ChatCompletion_create ops w).
Proof.
  revert w. induction ops as [|op ops IH]; intros w Hw Hscoped;
    [exact Hw|].
  destruct Hscoped as [Hop Hrest]. cbn.
  apply IH; [|exact Hrest]. by apply apply_consistent.
Qed.

(** C2, as the code has it: the store does not check who owns the version
    that is made active; the active version of every conversation is a
    version of that conversation after every sequence of mutations that
    respect this themselves, each in the world it runs in. *)
Theorem active_version_owned_after ops w :
  consistent w →
  scoped instance_conversation conversation_messages ChatCompletion_create
    ops w →
  active_version_owned
    (run instance_conversation conversation_messages ChatCompletion_create
       ops w).
Proof. intros Hw Hscoped. by apply run_consistent. Qed.
End Invariant.

Lemma one_thread_consistent : consistent one_thread.
Proof.
  split; [split|apply active_version_owned_test];
    apply (bool_decide_unpack (map_Forall _ _)); vm_compute; exact I.
Qed.

Lemma two_threads_consistent : consistent two_threads.
Proof.
  split; [exact two_threads_keyed|].
  apply active_version_owned_test.
  apply (bool_decide_unpack (map_Forall _ _)). vm_compute. exact I.
Qed.

Lemma active_version_owned_after_witness :
  let ops :=
    [ CreateConversation
        (mkConversationData (Some "Tides") None (Some alice) [] fresh);
      UpdateConversation c31
        (mkConversationData (Some "Renamed") (Some (Some v31)) None [] fresh);
      CreateMessage v31 (mkMessageData None (Some "And the moon?") (Some 1) m4);
      Tick 60;
      CleanupOldConversations 30 ] in
  consistent two_threads
  ∧ scoped Message_conversation Conversation_messages failing ops two_threads
  ∧ active_version_owned
      (run Message_conversation Conversation_messages failing ops two_threads).
Proof.
  assert (scoped Message_conversation Conversation_messages failing
            [ CreateConversation
                (mkConversationData (Some "Tides") None (Some alice) [] fresh);
              UpdateConversation c31
                (mkConversationData (Some "Renamed") (Some (Some v31)) None []
                   fresh);
              CreateMessage v31
                (mkMessageData None (Some "And the moon?") (Some 1) m4);
              Tick 60;
              CleanupOldConversations 30 ] two_threads) as Hscoped.
  { split; [reflexivity|]. split; [|repeat split].
    intros vid [= <-]. eexists. split; [vm_compute; reflexivity|reflexivity]. }
  split; [exact two_threads_consistent|]. split; [exact Hscoped|].
  exact (active_version_owned_after Message_conversation Conversation_messages
           failing _ two_threads two_threads_consistent Hscoped).
Defined.

(** C2 fails as stated: in a world where every active version is owned, the
    update of the conversation [c31] names the version [v60] of the
    conversation [c60], and the world after it has an active version that
    is not owned. *)
Lemma ownership_broken_by_an_update :
  let op := UpdateConversation c31
              (mkConversationData None (Some (Some v60)) None [] fresh) in
  let w := run Message_conversation Conversation_messages failing [op]
               two_threads in
  active_version_owned two_threads
  ∧ Conversation.active_version <$> conversations w !! c31 = Some (Some v60)
  ∧ Version.conversation <$> versions w !! v60 = Some c60
  ∧ ¬ active_version_owned w.
Proof.
  split; [apply two_threads_consistent|].
  split; [vm_compute; reflexivity|]. split; [vm_compute; reflexivity|].
  intros Howned. apply active_version_owned_test in Howned.
  apply (bool_decide_pack _) in Howned. vm_compute in Howned. exact Howned.
Qed.

(** The collection of a delete is complete: another round adds nothing. *)
Lemma conversations_on_stored w vs :
  conversations_on w vs ⊆ dom (conversations w).
Proof.
  intros k Hk. unfold conversations_on in Hk.
  apply elem_of_dom in Hk as [c Hc].
  apply map_lookup_filter_Some in Hc as [Hrow _].
  apply elem_of_dom. eauto.
Qed.

Lemma collect_stable fuel w cs :
  collect_step w cs = cs → collect fuel w cs = cs.
Proof.
  intros Hstable. induction fuel as [|fuel IH]; [reflexivity|].
  cbn. by rewrite Hstable.
Qed.

Lemma collect_closed fuel w cs :
  cs ⊆ dom (conversations w) →
  (size (dom (conversations w)) ≤ size cs + fuel)%nat →
  collect_step w (collect fuel w cs) = collect fuel w cs.
Proof.
  revert cs. induction fuel as [|fuel IH]; intros cs Hsub Hsize.
  - cbn. assert (cs = dom (conversations w)) as ->.
    { apply set_subseteq_size_eq; [exact Hsub|lia]. }
    unfold collect_step. rewrite (comm_L (∪)). apply subseteq_union_1_L.
    apply conversations_on_stored.
  - cbn. destruct (decide (collect_step w cs = cs)) as [Hstable|Hgrows].
    + rewrite Hstable, collect_stable by exact Hstable. exact Hstable.
    + assert (collect_step w cs ⊆ dom (conversations w)) as Hsub'.
      { unfold collect_step. apply union_least; [exact Hsub|].
        apply conversations_on_stored. }
      apply IH; [exact Hsub'|].
      assert (cs ⊂ collect_step w cs) as Hstrict.
      { split; [unfold collect_step; apply union_subseteq_l|].
        intros Hback. apply Hgrows.
        apply (anti_symm (⊆)); [exact Hback|].
        unfold collect_step. apply union_subseteq_l. }
      apply subset_size in Hstrict. lia.
Qed.

Lemma collect_conversations_closed w selected :
  collect_step w (collect_conversations w (matching selected w))
  = collect_conversations w (matching selected w).
Proof.
  unfold collect_conversations. apply collect_closed.
  - unfold matching. apply subseteq_dom, map_filter_subseteq.
  - rewrite size_dom. lia.
Qed.

(** In a consistent world the cleanup deletes the conversations created
    before the cutoff and no other. *)
Lemma cleanup_deletes_the_old_conversations days w :
  consistent w →
  conversations (cleanup_old_conversations days w).1
  = filter (λ kv, ¬ Conversation.created_at kv.2
                      < clock w - timedelta_days days)
           (conversations w).
Proof.
  intros Hw. unfold cleanup_old_conversations, bind, now, query, ret.
  unfold Conversation_queryset_delete, collect_conversations. cbn.
  rewrite collect_consistent by exact Hw.
  apply map_filter_ext. intros k c Hrow. cbn. unfold matching.
  rewrite elem_of_dom. split.
  - intros Hkept Hold. apply Hkept. exists c.
    apply map_lookup_filter_Some. split; [exact Hrow|]. cbn.
    apply Is_true_true. by apply Z.ltb_lt.
  - intros Hyoung [c' Hc']. apply map_lookup_filter_Some in Hc' as [Hrow' Hold].
    rewrite Hrow in Hrow'. injection Hrow' as <-. cbn in Hold.
    apply Hyoung. apply Z.ltb_lt. by apply Is_true_true.
Qed.

(** * More of the code *)

(** ** The cache of summaries *)



Lemma is_summary_stale_only row self t :
  assign_fields ["is_summary_stale"] t self row
  = Conversation.with_is_summary_stale (Conversation.is_summary_stale self) row.
Proof. reflexivity. Qed.


Section Service.
Variable conversation_messages :
  World -> Conversation.t -> result (list Message.t).
Variable ChatCompletion_create : ChatRequest -> result ChatResponse.



End Service.


(** ** The backfill *)

Lemma insert_newest_first_perm c l : insert_newest_first c l ≡ₚ c :: l.
Proof.
  induction l as [|x l IH]; cbn; [reflexivity|].
  destruct (_ <=? _); [reflexivity|]. rewrite IH. apply Permutation_swap.
Qed.



Section BackfillFacts.
Variable conversation_messages :
  World -> Conversation.t -> result (list Message.t).
Variable ChatCompletion_create : ChatRequest -> result ChatResponse.
Variable messages_isnull_False : result (World -> Conversation.t -> bool).




End BackfillFacts.

(** ** Deleting: the task and the command *)

Lemma refers_to_empty k : refers_to ∅ k = false.
Proof. destruct k as [k|]; [|reflexivity]. cbn. by apply bool_decide_eq_false. Qed.

Lemma filter_none {V} (P : string * V → Prop) `{∀ x, Decision (P x)}
    (m : gmap string V) :
  (∀ k v, m !! k = Some v → ¬ P (k, v)) → filter P m = ∅.
Proof.
  intros Hnone. apply map_empty. intros k. apply map_lookup_filter_None.
  right. intros v Hv. by apply Hnone.
Qed.

Lemma versions_of_empty w : versions_of w ∅ = ∅.
Proof.
  unfold versions_of. apply dom_empty_iff_L, filter_none.
  intros k v _. cbn -[refers_to]. rewrite refers_to_empty. intros [].
Qed.

Lemma conversations_on_empty w : conversations_on w ∅ = ∅.
Proof.
  unfold conversations_on. apply dom_empty_iff_L, filter_none.
  intros k c _. cbn -[refers_to]. rewrite refers_to_empty. intros [].
Qed.

Lemma messages_of_empty w : messages_of w ∅ = ∅.
Proof.
  unfold messages_of. apply dom_empty_iff_L, filter_none.
  intros k m _. cbn -[refers_to]. rewrite refers_to_empty. intros [].
Qed.

Lemma collect_empty fuel w : collect fuel w ∅ = ∅.
Proof.
  apply collect_stable. unfold collect_step.
  rewrite versions_of_empty, conversations_on_empty. apply (left_id_L ∅ (∪)).
Qed.

Lemma filter_not_in_empty {V}
    (H : ∀ x : string * V, Decision (x.1 ∉ (∅ : gset string)))
    (m : gmap string V) :
  @filter _ _ _ (λ kv : string * V, kv.1 ∉ (∅ : gset string)) H m = m.
Proof. apply map_filter_id. intros k v _. cbn. apply not_elem_of_empty. Qed.

(** A delete of a queryset without rows changes nothing and returns 0. *)
Lemma delete_of_nothing selected w :
  matching selected w = ∅ →
  Conversation_queryset_delete selected w = (w, Ok (0, mkDeleted 0 0 0)).
Proof.
  intros Hnone. unfold Conversation_queryset_delete, collect_conversations.
  cbv zeta.
  rewrite Hnone, collect_empty, versions_of_empty, messages_of_empty.
  rewrite !filter_not_in_empty. cbn.
  assert ((λ v, Version.mk (Version.id v) (Version.conversation v)
                  (nullify ∅ (Version.parent_version v))
                  (nullify ∅ (Version.root_message v))) <$> versions w
          = versions w) as ->.
  { apply map_eq. intros k. rewrite lookup_fmap.
    destruct (versions w !! k) as [[id c p r]|]; [|reflexivity]. cbn.
    unfold nullify. by rewrite !refers_to_empty. }
  assert ((λ f, UploadedFile.with_conversation
                  (nullify ∅ (UploadedFile.conversation f)) f)
            <$> uploaded_files w = uploaded_files w) as ->.
  { apply map_eq. intros k. rewrite lookup_fmap.
    destruct (uploaded_files w !! k) as [f|]; [|reflexivity]. cbn.
    unfold nullify. rewrite refers_to_empty. by destruct f. }
  by destruct w.
Qed.




(** ** The command [cleanup_conversations] *)

Lemma same_tables_refl w : same_tables w w.
Proof. by repeat split. Qed.

Lemma same_tables_trans w1 w2 w3 :
  same_tables w1 w2 → same_tables w2 w3 → same_tables w1 w3.
Proof.
  intros (? & ? & ? & ?) (? & ? & ? & ?). unfold same_tables.
  repeat split; congruence.
Qed.

Lemma bind_same_tables {A B} (m : M A) (k : A → M B) w :
  same_tables w (m w).1 →
  (∀ a w', same_tables w' (k a w').1) →
  same_tables w (bind m k w).1.
Proof.
  intros Hm Hk. unfold bind. specialize (Hk).
  destruct (m w) as [w' [a|e]]; [|exact Hm].
  eapply same_tables_trans; [exact Hm|apply Hk].
Qed.

Lemma for_each_same_tables {A} (l : list A) (body : A → M unit) :
  (∀ a w, same_tables w (body a w).1) →
  ∀ w, same_tables w (for_each l body w).1.
Proof.
  intros Hbody. induction l as [|a l IH]; intros w;
    [apply same_tables_refl|].
  cbn [for_each]. apply bind_same_tables; [apply Hbody|]. intros _. apply IH.
Qed.

Lemma write_same_tables line w : same_tables w (write line w).1.
Proof. by repeat split. Qed.

(** X8: the command changes no table when it is run with [--dry-run], and
    none when the operator answers anything but yes, in whatever case. *)
Theorem handle_without_yes_keeps_tables conversation_messages options confirm
    w :
  opt_dry_run options = true ∨ lower confirm ≠ "yes" →
  same_tables w (handle conversation_messages options confirm w).1.
Proof.
  intros Hno. unfold handle.
  apply bind_same_tables; [apply same_tables_refl|intros t w1].
  apply bind_same_tables; [apply same_tables_refl|intros queryset w2].
  apply bind_same_tables; [apply same_tables_refl|intros count w3].
  destruct (count =? 0); [apply write_same_tables|].
  apply bind_same_tables; [apply write_same_tables|intros _ w4].
  destruct (opt_dry_run options) eqn:Hdry.
  - apply bind_same_tables; [apply write_same_tables|intros _ w5].
    apply bind_same_tables; [apply same_tables_refl|intros rows w6].
    apply for_each_same_tables. intros conv w7.
    apply bind_same_tables; [apply same_tables_refl|intros related w8].
    apply write_same_tables.
  - apply bind_same_tables; [apply write_same_tables|intros _ w5].
    destruct Hno as [Hno|Hno]; [discriminate|].
    destruct (String.eqb_spec (lower confirm) "yes") as [Hyes|_]; [done|].
    apply write_same_tables.
Qed.

Lemma handle_without_yes_keeps_tables_witness :
  let options := mkOptions 30 false None in
  (opt_dry_run options = true ∨ lower "y" ≠ "yes")
  ∧ same_tables two_threads
      (handle Conversation_messages options "y" two_threads).1.
Proof.
  split; [right; discriminate|].
  apply handle_without_yes_keeps_tables. right. discriminate.
Defined.

Lemma matching_size_pos selected w :
  matching selected w ≠ ∅ →
  (Z.of_nat (size (matching selected w)) =? 0) = false.
Proof.
  intros Hsome. apply Z.eqb_neq. intros Hzero. apply Hsome.
  apply leibniz_equiv, size_empty_iff. lia.
Qed.

Lemma rows_newest_first_selected selected w k c :
  conversations w !! k = Some c → selected c = true →
  c ∈ rows_newest_first selected w.
Proof.
  intros Hrow Hselected. unfold rows_newest_first.
  assert (∀ l, foldr insert_newest_first [] l ≡ₚ l) as Hperm.
  { induction l as [|x l IH]; cbn; [reflexivity|].
    by rewrite insert_newest_first_perm, IH. }
  rewrite Hperm. apply list_elem_of_filter. split; [by apply Is_true_true|].
  apply list_elem_of_fmap. exists (k, c). split; [reflexivity|].
  by apply elem_of_map_to_list.
Qed.

Lemma rows_newest_first_some selected w :
  matching selected w ≠ ∅ → rows_newest_first selected w ≠ [].
Proof.
  intros Hsome Hnone. apply Hsome. apply set_eq. intros k.
  split; [|by intros ?%not_elem_of_empty].
  unfold matching. intros [c [Hrow Hc]%map_lookup_filter_Some]%elem_of_dom.
  cbn in Hc. apply Is_true_true in Hc.
  pose proof (rows_newest_first_selected selected w k c Hrow Hc) as Hin.
  rewrite Hnone in Hin. by apply not_elem_of_nil in Hin.
Qed.

(** X9: with [--dry-run] and a conversation to report, the command prints
    its two headings and then fails on [conv.messages], which [Conversation]
    does not have: no conversation is listed. *)
Theorem handle_dry_run_raises options confirm w :
  let queryset :=
    command_queryset (clock w - timedelta_days (opt_days options))
                     (opt_user options) w in
  opt_dry_run options = true →
  matching queryset w ≠ ∅ →
  handle Conversation_messages options confirm w
  = (set_stdout
       (stdout w ++ [ "Conversations to delete: "
                      +:+ pretty (Z.of_nat (size (matching queryset w)))
                      +:+ newline;
                      "DRY RUN - No deletions made" +:+ newline ]) w,
     Raise (AttributeError "Conversation" "messages")).
Proof.
  intros queryset Hdry Hsome.
  unfold handle. cbv [bind now query]. fold queryset.
  rewrite (matching_size_pos _ _ Hsome), Hdry. cbn [write modify].
  pose proof (rows_newest_first_some queryset w Hsome) as Hrows.
  assert (rows_newest_first queryset
            (set_stdout
               (stdout (set_stdout
                  (stdout w ++ ["Conversations to delete: "
                     +:+ pretty (Z.of_nat (size (matching queryset w)))
                     +:+ newline]) w)
                ++ ["DRY RUN - No deletions made" +:+ newline])
               (set_stdout
                  (stdout w ++ ["Conversations to delete: "
                     +:+ pretty (Z.of_nat (size (matching queryset w)))
                     +:+ newline]) w))
          = rows_newest_first queryset w) as -> by reflexivity.
  destruct (rows_newest_first queryset w) as [|conv rows]; [done|].
  cbn. by rewrite <- (assoc_L (++)).
Qed.

Lemma handle_dry_run_raises_witness :
  let options := mkOptions 30 true None in
  let queryset :=
    command_queryset (clock two_threads - timedelta_days (opt_days options))
                     (opt_user options) two_threads in
  opt_dry_run options = true
  ∧ matching queryset two_threads ≠ ∅
  ∧ handle Conversation_messages options "" two_threads
    = (set_stdout
         (stdout two_threads
          ++ [ "Conversations to delete: "
               +:+ pretty (Z.of_nat (size (matching queryset two_threads)))
               +:+ newline;
               "DRY RUN - No deletions made" +:+ newline ]) two_threads,
       Raise (AttributeError "Conversation" "messages")).
Proof.
  intros options queryset.
  assert (matching queryset two_threads ≠ ∅) as Hsome.
  { intros Hnone. apply (f_equal size) in Hnone. vm_compute in Hnone.
    discriminate. }
  split; [reflexivity|]. split; [exact Hsome|].
  apply (handle_dry_run_raises options "" two_threads eq_refl Hsome).
Defined.

Lemma same_tables_sym w1 w2 : same_tables w1 w2 → same_tables w2 w1.
Proof. intros (? & ? & ? & ?). by repeat split. Qed.

Lemma matching_ext selected1 selected2 w1 w2 :
  conversations w2 = conversations w1 →
  (∀ k c, conversations w1 !! k = Some c → selected1 c = selected2 c) →
  matching selected1 w1 = matching selected2 w2.
Proof.
  intros Hc Hext. unfold matching. rewrite Hc. f_equal.
  apply map_filter_ext. intros k c Hrow. cbn. by rewrite (Hext k c Hrow).
Qed.

Lemma collect_tables fuel w1 w2 cs :
  same_tables w1 w2 → collect fuel w2 cs = collect fuel w1 cs.
Proof.
  intros (Hc & Hv & _). revert cs.
  induction fuel as [|fuel IH]; intros cs; [reflexivity|].
  cbn [collect]. rewrite IH. f_equal.
  unfold collect_step, conversations_on, versions_of. by rewrite Hc, Hv.
Qed.

(** What a delete does to the tables depends on the tables and on the
    conversations selected, and on nothing else. *)
Lemma Conversation_queryset_delete_tables selected1 selected2 w1 w2 :
  same_tables w1 w2 →
  matching selected1 w1 = matching selected2 w2 →
  same_tables (Conversation_queryset_delete selected1 w1).1
              (Conversation_queryset_delete selected2 w2).1
  ∧ (Conversation_queryset_delete selected1 w1).2
    = (Conversation_queryset_delete selected2 w2).2.
Proof.
  intros Hsame Hmatching. pose proof Hsame as (Hc & Hv & Hm & Hf).
  unfold Conversation_queryset_delete, collect_conversations, same_tables.
  cbn [fst snd conversations versions messages uploaded_files].
  rewrite <- Hmatching, (collect_tables _ _ _ _ Hsame), Hc.
  unfold messages_of, versions_of. rewrite Hv, Hm, Hf. by repeat split.
Qed.

(** The tables after the command: those after the delete of its queryset
    when it is not a dry run and the answer is yes, the tables before
    otherwise. *)
Lemma handle_tables conversation_messages options confirm w :
  let queryset :=
    command_queryset (clock w - timedelta_days (opt_days options))
                     (opt_user options) w in
  same_tables
    (if negb (opt_dry_run options) && String.eqb (lower confirm) "yes"
     then (Conversation_queryset_delete queryset w).1 else w)
    (handle conversation_messages options confirm w).1.
Proof.
  intros queryset. unfold handle. cbv [bind now query]. fold queryset.
  destruct (Z.of_nat (size (matching queryset w)) =? 0) eqn:Hcount.
  - assert (matching queryset w = ∅) as Hnone.
    { apply Z.eqb_eq in Hcount. apply leibniz_equiv, size_empty_iff. lia. }
    rewrite (delete_of_nothing _ _ Hnone). cbn.
    destruct (negb _ && _); by repeat split.
  - cbn [write modify].
    set (w4 := set_stdout _ w).
    assert (same_tables w w4) as Hw4 by (by repeat split).
    destruct (opt_dry_run options); cbn [negb andb].
    + set (w5 := set_stdout _ w4).
      eapply same_tables_trans; [|apply for_each_same_tables].
      * by repeat split.
      * intros conv w7. destruct (conversation_messages w7 conv);
          by repeat split.
    + set (w5 := set_stdout _ w4).
      destruct (String.eqb (lower confirm) "yes"); [|by repeat split].
      assert (same_tables w w5) as Hw5 by (by repeat split).
      destruct (Conversation_queryset_delete_tables queryset queryset w w5 Hw5)
        as [Htables _].
      { apply matching_ext; [apply Hw5|done]. }
      unfold Conversation_queryset_delete in *. cbn in *. exact Htables.
Qed.

(** X10: without [--user], on the answer yes, the command leaves the tables
    as the task [cleanup_old_conversations] leaves them for the same number
    of days. *)
Theorem handle_yes_deletes_like_the_task conversation_messages options
    confirm w :
  opt_dry_run options = false →
  truthy (opt_user options) = false →
  lower confirm = "yes" →
  same_tables (cleanup_old_conversations (opt_days options) w).1
              (handle conversation_messages options confirm w).1.
Proof.
  intros Hdry Huser Hyes.
  pose proof (handle_tables conversation_messages options confirm w)
    as Hhandle.
  cbv zeta in Hhandle. rewrite Hdry, Hyes in Hhandle. cbn [negb andb] in Hhandle.
  rewrite String.eqb_refl in Hhandle.
  eapply same_tables_trans; [|exact Hhandle].
  set (selected := λ c, Conversation.created_at c
                        <? clock w - timedelta_days (opt_days options)).
  assert ((cleanup_old_conversations (opt_days options) w).1
          = (Conversation_queryset_delete selected w).1) as -> by reflexivity.
  apply Conversation_queryset_delete_tables; [apply same_tables_refl|].
  apply matching_ext; [reflexivity|]. intros k c _.
  unfold selected, command_queryset. rewrite Huser. by rewrite andb_true_r.
Qed.

Lemma handle_yes_deletes_like_the_task_witness :
  let options := mkOptions 30 false (Some "") in
  opt_dry_run options = false
  ∧ truthy (opt_user options) = false
  ∧ lower "Yes" = "yes"
  ∧ same_tables (cleanup_old_conversations (opt_days options) two_threads).1
      (handle Conversation_messages options "Yes" two_threads).1.
Proof.
  split; [reflexivity|]. split; [reflexivity|]. split; [reflexivity|].
  apply handle_yes_deletes_like_the_task; reflexivity.
Defined.

(** X11: with [--user], in a world where every active version belongs to
    its conversation, the command leaves the conversations of every other
    owner as they are, whatever the answer. *)
Theorem handle_spares_other_owners conversation_messages options confirm w
    k c :
  consistent w →
  truthy (opt_user options) = true →
  conversations w !! k = Some c →
  users w !! Conversation.user c ≠ opt_user options →
  conversations (handle conversation_messages options confirm w).1 !! k
  = Some c.
Proof.
  intros Hw Huser Hrow Hother.
  pose proof (handle_tables conversation_messages options confirm w)
    as (-> & _).
  destruct (negb _ && _); [|exact Hrow].
  unfold Conversation_queryset_delete, collect_conversations.
  cbn [fst conversations]. rewrite collect_consistent by exact Hw.
  apply map_lookup_filter_Some. split; [exact Hrow|]. cbn.
  unfold matching. intros [c' [Hrow' Hselected]%map_lookup_filter_Some]%elem_of_dom.
  rewrite Hrow in Hrow'. injection Hrow' as <-. cbn in Hselected.
  unfold command_queryset in Hselected. rewrite Huser in Hselected.
  apply Is_true_true, andb_true_iff in Hselected as [_ Howner].
  by apply bool_decide_eq_true in Howner.
Qed.

Lemma handle_spares_other_owners_witness :
  let options := mkOptions 30 false (Some "bob") in
  consistent two_threads
  ∧ truthy (opt_user options) = true
  ∧ conversations two_threads !! c31
    = Some (conversation c31 31 alice (Some v31))
  ∧ users two_threads !! Conversation.user (conversation c31 31 alice (Some v31))
    ≠ opt_user options
  ∧ conversations (handle Conversation_messages options "yes" two_threads).1
      !! c31
    = Some (conversation c31 31 alice (Some v31)).
Proof.
  split; [apply two_threads_consistent|]. split; [reflexivity|].
  split; [reflexivity|]. split; [vm_compute; discriminate|].
  apply handle_spares_other_owners;
    [apply two_threads_consistent|reflexivity|reflexivity|
     vm_compute; discriminate].
Defined.

(** ** What a delete leaves behind *)

Lemma elem_of_versions_of w cs k :
  k ∈ versions_of w cs
  ↔ ∃ v, versions w !! k = Some v ∧ Version.conversation v ∈ cs.
Proof.
  unfold versions_of. rewrite elem_of_dom. split.
  - intros [v [Hv Hin]%map_lookup_filter_Some]. cbn in Hin.
    apply bool_decide_unpack in Hin. eauto.
  - intros (v & Hv & Hin). exists v. apply map_lookup_filter_Some.
    split; [exact Hv|]. cbn. by apply bool_decide_pack.
Qed.

Lemma elem_of_messages_of w vs k :
  k ∈ messages_of w vs
  ↔ ∃ m, messages w !! k = Some m ∧ Message.version m ∈ vs.
Proof.
  unfold messages_of. rewrite elem_of_dom. split.
  - intros [m [Hm Hin]%map_lookup_filter_Some]. cbn in Hin.
    apply bool_decide_unpack in Hin. eauto.
  - intros (m & Hm & Hin). exists m. apply map_lookup_filter_Some.
    split; [exact Hm|]. cbn. by apply bool_decide_pack.
Qed.

Lemma elem_of_conversations_on w vs k :
  k ∈ conversations_on w vs
  ↔ ∃ c vid, conversations w !! k = Some c
             ∧ Conversation.active_version c = Some vid ∧ vid ∈ vs.
Proof.
  unfold conversations_on. rewrite elem_of_dom. split.
  - intros [c [Hc Hin]%map_lookup_filter_Some]. cbn in Hin.
    destruct (Conversation.active_version c) as [vid|] eqn:Hactive; [|done].
    cbn in Hin. apply bool_decide_unpack in Hin. eauto.
  - intros (c & vid & Hc & Hactive & Hin). exists c.
    apply map_lookup_filter_Some. split; [exact Hc|]. cbn.
    rewrite Hactive. cbn. by apply bool_decide_pack.
Qed.

(** A reference that the delete does not set to [NULL] points at a row that
    the delete keeps. *)
Lemma fk_present_nullify {V W} (tbl : gmap string V) (tbl' : gmap string W)
    (s : gset string) k :
  fk_present tbl k = true →
  (∀ x, x ∉ s → is_Some (tbl !! x) → is_Some (tbl' !! x)) →
  fk_present tbl' (nullify s k) = true.
Proof.
  intros Hpresent Hkept. unfold nullify.
  destruct k as [x|]; [|reflexivity]. cbn in *.
  destruct (bool_decide (x ∈ s)) eqn:Hin; [reflexivity|].
  apply bool_decide_eq_false in Hin. apply bool_decide_eq_true in Hpresent.
  cbn. apply bool_decide_eq_true. by apply Hkept.
Qed.

(** X12: a delete of conversations leaves no reference dangling: from a
    world where every reference points at a row it leads to such a world. *)
Theorem Conversation_queryset_delete_referential selected w :
  referential w → referential (Conversation_queryset_delete selected w).1.
Proof.
  intros (Hmessages & Hversions & Hconversations & Hfiles).
  pose proof (collect_conversations_closed w selected) as Hclosed.
  unfold Conversation_queryset_delete. cbv zeta.
  set (cs := collect_conversations w (matching selected w)) in *.
  set (vs := versions_of w cs). set (ms := messages_of w vs).
  assert (∀ x, x ∉ cs → is_Some (conversations w !! x) →
               is_Some (filter (λ kv, kv.1 ∉ cs) (conversations w) !! x))
    as Hcs.
  { intros x Hx [c Hc]. exists c. by apply map_lookup_filter_Some. }
  assert (∀ x, x ∉ vs → is_Some (versions w !! x) →
               is_Some (((λ v, Version.mk (Version.id v)
                                  (Version.conversation v)
                                  (nullify vs (Version.parent_version v))
                                  (nullify ms (Version.root_message v)))
                         <$> filter (λ kv, kv.1 ∉ vs) (versions w)) !! x))
    as Hvs.
  { intros x Hx [v Hv]. rewrite lookup_fmap.
    assert (filter (λ kv, kv.1 ∉ vs) (versions w) !! x = Some v) as ->
      by (by apply map_lookup_filter_Some).
    by eexists. }
  assert (∀ x, x ∉ ms → is_Some (messages w !! x) →
               is_Some (filter (λ kv, kv.1 ∉ ms) (messages w) !! x))
    as Hms.
  { intros x Hx [m Hm]. exists m. by apply map_lookup_filter_Some. }
  unfold referential.
  cbn [fst conversations versions messages uploaded_files].
  split; [|split; [|split]].
  - intros k m [Hm Hkept]%map_lookup_filter_Some. cbn in Hkept.
    apply Hvs; [|by eapply Hmessages].
    intros Hin. apply Hkept. apply elem_of_messages_of. eauto.
  - intros k v' (v & <- & [Hv Hkept]%map_lookup_filter_Some)%lookup_fmap_Some.
    cbn in Hkept. cbn [Version.conversation Version.parent_version
                       Version.root_message].
    destruct (Hversions k v Hv) as (Hconversation & Hparent & Hroot).
    split; [|split].
    + apply Hcs; [|exact Hconversation].
      intros Hin. apply Hkept. apply elem_of_versions_of. eauto.
    + by apply (fk_present_nullify (versions w)).
    + by apply (fk_present_nullify (messages w)).
  - intros k c [Hc Hkept]%map_lookup_filter_Some. cbn in Hkept.
    specialize (Hconversations k c Hc).
    destruct (Conversation.active_version c) as [vid|] eqn:Hactive;
      [|reflexivity].
    cbn in *. apply bool_decide_eq_true. apply bool_decide_eq_true in Hconversations.
    apply Hvs; [|exact Hconversations].
    intros Hin. apply Hkept. rewrite <- Hclosed. unfold collect_step.
    apply elem_of_union_r. apply elem_of_conversations_on. eauto.
  - intros k f' (f & <- & Hf)%lookup_fmap_Some.
    cbn [UploadedFile.conversation UploadedFile.with_conversation].
    apply (fk_present_nullify (conversations w)); [|exact Hcs].
    by apply (Hfiles k f).
Qed.

Lemma two_threads_referential : referential two_threads.
Proof.
  split; [|split; [|split]].
  - apply (bool_decide_unpack (map_Forall _ _)). vm_compute. exact I.
  - apply (bool_decide_unpack (map_Forall _ _)). vm_compute. exact I.
  - apply (bool_decide_unpack (map_Forall _ _)). vm_compute. exact I.
  - apply (bool_decide_unpack (map_Forall _ _)). vm_compute. exact I.
Qed.

Lemma Conversation_queryset_delete_referential_witness :
  referential two_threads
  ∧ referential
      (Conversation_queryset_delete
         (λ c, String.eqb (Conversation.id c) c31) two_threads).1.
Proof.
  split; [apply two_threads_referential|].
  apply Conversation_queryset_delete_referential, two_threads_referential.
Defined.

(** ** The serializers: messages of a version *)

(** The save of a stored conversation that passes its checks writes the
    row with [modified_at] at the time of the save, and returns it. *)
Lemma Conversation_save_touch c w :
  is_Some (conversations w !! Conversation.id c) →
  is_Some (users w !! Conversation.user c) →
  fk_present (versions w) (Conversation.active_version c) = true →
  Conversation_save false c w
  = (set_conversations
       (<[Conversation.id c := Conversation.with_modified_at (clock w) c]>
          (conversations w)) w,
     Ok (Conversation.with_modified_at (clock w) c)).
Proof.
  intros Hrow Hu Hfk.
  unfold Conversation_save. cbv [bind now query require modify ret].
  rewrite (bool_decide_true _ Hrow). cbn.
  rewrite (bool_decide_true _ Hu). cbn. rewrite Hfk. reflexivity.
Qed.

Section Messages.
Variable instance_conversation :
  World -> Message.t -> result (option Conversation.t).
Variable conversation_messages :
  World -> Conversation.t -> result (list Message.t).
Variable ChatCompletion_create : ChatRequest -> result ChatResponse.

(** X13: the update of a version reaches only the messages of that version:
    for an identifier that no message has, or that a message of another
    version has, it raises [DoesNotExist] and writes nothing. *)
Theorem upsert_message_of_another_version instance message_data id w :
  md_id message_data = Some id →
  (∀ m, messages w !! id = Some m → Message.version m ≠ instance) →
  upsert_message instance_conversation conversation_messages
    ChatCompletion_create instance message_data w
  = (w, Raise (DoesNotExist "Message")).
Proof.
  intros Hid Hother. unfold upsert_message. rewrite Hid.
  cbv [bind Message_objects_get query].
  destruct (messages w !! id) as [m|] eqn:Hm; [|reflexivity].
  destruct (String.eqb_spec (Message.version m) instance) as [Hsame|_];
    [|reflexivity].
  by destruct (Hother m eq_refl).
Qed.

(** X14: the edit of a message of the version writes two rows and no more:
    the conversation, with [modified_at] at the time of the edit, and the
    message, with the content and the role of the payload where it has
    them; [created_at] and the version of the message stay.  The receiver of
    [post_save] is not consulted, so the edit succeeds whatever the
    attributes of the models and whatever the provider. *)
Theorem upsert_message_edits_in_place instance message_data id m v c role w :
  md_id message_data = Some id →
  messages w !! id = Some m →
  Message.id m = id →
  Message.version m = instance →
  versions w !! instance = Some v →
  conversations w !! Version.conversation v = Some c →
  Conversation.id c = Version.conversation v →
  is_Some (users w !! Conversation.user c) →
  fk_present (versions w) (Conversation.active_version c) = true →
  match md_role message_data with
  | Some r => Some r
  | None => Message.role m
  end = Some role →
  is_Some (roles w !! role) →
  upsert_message instance_conversation conversation_messages
    ChatCompletion_create instance message_data w
  = (set_messages
       (<[id := Message.mk id
                  (default (Message.content m) (md_content message_data))
                  (Some role) (Message.created_at m) instance]>
          (messages w))
       (set_conversations
          (<[Conversation.id c := Conversation.with_modified_at (clock w) c]>
             (conversations w)) w),
     Ok tt).
Proof.
  intros Hid Hm Hpk Hversion Hv Hc Hcid Hu Hfk Hrole Hr.
  unfold upsert_message. rewrite Hid.
  cbv [bind Message_objects_get query]. rewrite Hm, Hversion.
  rewrite String.eqb_refl. cbv zeta.
  change (Message.role (Message.with_content
            (default (Message.content m) (md_content message_data)) m))
    with (Message.role m).
  rewrite Hrole.
  unfold Message_save. cbv [bind Version_objects_get
    Conversation_objects_get query].
  cbn [Message.version Message.with_role Message.with_content].
  rewrite Hversion, Hv, Hc.
  rewrite Conversation_save_touch; [|rewrite Hcid, Hc; by eexists|done|done].
  unfold Model_save_Message. cbv [bind now query require modify ret raise].
  cbn [Message.id Message.role Message.version Message.with_role
       Message.with_content messages roles versions set_conversations
       clock].
  rewrite Hpk, Hm.
  rewrite (bool_decide_true (is_Some (Some m))) by eauto.
  cbn [orb andb negb fk_present Message.role Message.version Message.id].
  cbn. rewrite (bool_decide_true _ Hr). cbn.
  rewrite Hversion, Hv. cbn.
  unfold post_save_Message, signals_connected,
    regenerate_summary_on_message_save. cbn.
  unfold Message.with_role, Message.with_content. cbn.
  by rewrite Hpk, Hversion.
Qed.

End Messages.

Lemma upsert_message_of_another_version_witness :
  let message_data := mkMessageData (Some m1) (Some "Hello?") None fresh in
  md_id message_data = Some m1
  ∧ (∀ m, messages two_threads !! m1 = Some m → Message.version m ≠ v60)
  ∧ upsert_message Message_conversation Conversation_messages failing v60
      message_data two_threads
    = (two_threads, Raise (DoesNotExist "Message")).
Proof.
  assert (∀ m, messages two_threads !! m1 = Some m → Message.version m ≠ v60)
    as Hother.
  { intros m Hm. vm_compute in Hm. injection Hm as <-. discriminate. }
  split; [reflexivity|]. split; [exact Hother|].
  apply (upsert_message_of_another_version Message_conversation
           Conversation_messages failing v60
           (mkMessageData (Some m1) (Some "Hello?") None fresh) m1 two_threads
           eq_refl Hother).
Defined.

Lemma upsert_message_edits_in_place_witness :
  let message_data := mkMessageData (Some m1) (Some "Hello?") None fresh in
  let m := Message.mk m1 "Hello" (Some 1) (today - 31 * day) v31 in
  let v := Version.mk v31 c31 None None in
  let c := conversation c31 31 alice (Some v31) in
  md_id message_data = Some m1
  ∧ messages two_threads !! m1 = Some m
  ∧ Message.id m = m1
  ∧ Message.version m = v31
  ∧ versions two_threads !! v31 = Some v
  ∧ conversations two_threads !! Version.conversation v = Some c
  ∧ Conversation.id c = Version.conversation v
  ∧ is_Some (users two_threads !! Conversation.user c)
  ∧ fk_present (versions two_threads) (Conversation.active_version c) = true
  ∧ match md_role message_data with
    | Some r => Some r
    | None => Message.role m
    end = Some 1
  ∧ is_Some (roles two_threads !! 1)
  ∧ upsert_message Message_conversation Conversation_messages failing v31
      message_data two_threads
    = (set_messages
         (<[m1 := Message.mk m1 "Hello?" (Some 1) (today - 31 * day) v31]>
            (messages two_threads))
         (set_conversations
            (<[c31 := Conversation.with_modified_at today c]>
               (conversations two_threads)) two_threads),
       Ok tt).
Proof.
  split; [reflexivity|]. split; [reflexivity|]. split; [reflexivity|].
  split; [reflexivity|]. split; [reflexivity|]. split; [reflexivity|].
  split; [reflexivity|]. split; [by eexists|]. split; [reflexivity|].
  split; [reflexivity|]. split; [by eexists|].
  apply (upsert_message_edits_in_place Message_conversation
           Conversation_messages failing v31
           (mkMessageData (Some m1) (Some "Hello?") None fresh) m1
           (Message.mk m1 "Hello" (Some 1) (today - 31 * day) v31)
           (Version.mk v31 c31 None None)
           (conversation c31 31 alice (Some v31)) 1 two_threads);
    [reflexivity|reflexivity|reflexivity|reflexivity|reflexivity|reflexivity|
     reflexivity|by eexists|reflexivity|reflexivity|by eexists].
Defined.

(** ** The serializers: conversations and their versions *)

(** A save of a conversation fails on a constraint, with nothing written,
    or writes the row of the conversation and no other table. *)
Lemma Conversation_save_cases adding self w :
  (∃ x, Conversation_save adding self w = (w, Raise (IntegrityError x)))
  ∨ (∃ w' c, Conversation_save adding self w = (w', Ok c)
       ∧ Conversation.id c = Conversation.id self
       ∧ Conversation.active_version c = Conversation.active_version self
       ∧ versions w' = versions w
       ∧ messages w' = messages w).
Proof.
  unfold Conversation_save, bind, now, query, require, modify, raise, ret.
  cbv zeta. destruct (negb _); [|left; by eexists].
  destruct (adding || _) eqn:Hcreated; cbn;
    (destruct (bool_decide (is_Some (users w !! _))); cbn;
       [|left; by eexists]);
    (destruct (fk_present _ _); cbn; [|left; by eexists]); right;
    eexists _, _; (split; [reflexivity|]); by repeat split.
Qed.

Lemma versions_added_to_refl conversation w :
  versions_added_to conversation w w.
Proof. split; eauto. Qed.

Lemma versions_added_to_trans conversation w1 w2 w3 :
  versions_added_to conversation w1 w2 →
  versions_added_to conversation w2 w3 →
  versions_added_to conversation w1 w3.
Proof.
  intros [Hkeep1 Hnew1] [Hkeep2 Hnew2]. split; [eauto|].
  intros k v Hv. destruct (Hnew2 k v Hv) as [Hold|Hin]; eauto.
Qed.

Lemma for_each_versions_added_to {A} conversation w0 (l : list A)
    (body : A → M unit) :
  (∀ a w, versions_added_to conversation w0 w →
          versions_added_to conversation w0 (body a w).1) →
  ∀ w, versions_added_to conversation w0 w →
       versions_added_to conversation w0 (for_each l body w).1.
Proof.
  intros Hbody. induction l as [|a l IH]; intros w Hw; [exact Hw|].
  cbn [for_each]. unfold bind. specialize (Hbody a w Hw).
  destruct (body a w) as [w1 [[]|e]]; [|exact Hbody]. by apply IH.
Qed.

Section Versions.
Variable instance_conversation :
  World -> Message.t -> result (option Conversation.t).
Variable conversation_messages :
  World -> Conversation.t -> result (list Message.t).
Variable ChatCompletion_create : ChatRequest -> result ChatResponse.


(** X16: an update of a conversation cannot clear its active version: an
    explicit [None] in the payload is read as no change, and a conversation
    that had an active version has one after every update that returns. *)
Theorem ConversationSerializer_update_keeps_an_active_version instance
    validated_data w w' c :
  ConversationSerializer_update instance_conversation conversation_messages
    ChatCompletion_create instance validated_data w = (w', Ok c) →
  (cd_active_version validated_data = Some None →
   Conversation.active_version c = Conversation.active_version instance)
  ∧ (is_Some (Conversation.active_version instance) →
     is_Some (Conversation.active_version c)).
Proof.
  unfold ConversationSerializer_update. cbv zeta.
  set (titled := Conversation.with_title _ instance).
  intros Hout.
  assert (∀ self (body : Conversation.t → M unit),
            (let* instance0 := Conversation_save false self in
             let* _ := body instance0 in ret instance0) w = (w', Ok c) →
            Conversation.active_version c = Conversation.active_version self)
    as Hrest.
  { intros self body. unfold bind at 1.
    destruct (Conversation_save_cases false self w)
      as [[x ->]|(w1 & c1 & -> & _ & Hactive & _)]; [discriminate|].
    unfold bind. destruct (body c1 w1) as [w2 [[]|e]]; [|discriminate].
    cbv [ret]. intros [= _ <-]. exact Hactive. }
  unfold bind at 1 in Hout.
  destruct (dict_get _ _) as [vid|] eqn:Hpayload.
  - cbv [Version_objects_get query ret] in Hout. unfold bind at 1 in Hout.
    destruct (versions w !! vid) as [active|]; [|discriminate].
    apply Hrest in Hout.
    rewrite Hout. cbn. split; [|by eexists].
    intros Hnull. rewrite Hnull in Hpayload. discriminate.
  - unfold ret at 1 in Hout. apply Hrest in Hout. rewrite Hout. cbn. done.
Qed.

(** Saving a message writes no version. *)
Lemma update_conversation_summary_versions conversation w :
  versions (update_conversation_summary conversation_messages
              ChatCompletion_create conversation w).1 = versions w.
Proof.
  unfold update_conversation_summary.
  destruct (generate_summary_returns conversation_messages
              ChatCompletion_create conversation w) as (summary & Hgen & _).
  unfold try_except at 1. unfold bind at 1. rewrite Hgen.
  destruct (truthy summary); [|reflexivity].
  unfold bind at 1, now, query. unfold try_except, bind.
  match goal with
  | |- context [Conversation_save_update_fields ?fs ?c0 w] =>
      pose proof (Conversation_save_update_fields_spec fs c0 w) as Hsave;
      destruct (conversations w !! Conversation.id c0);
      rewrite Hsave; reflexivity
  end.
Qed.

Lemma Message_save_versions adding self w :
  versions (Message_save instance_conversation conversation_messages
              ChatCompletion_create adding self w).1 = versions w.
Proof.
  unfold Message_save.
  cbv [bind Version_objects_get Conversation_objects_get query].
  destruct (versions w !! Message.version self) as [v|]; [|reflexivity].
  destruct (conversations w !! Version.conversation v) as [c0|];
    [|reflexivity].
  destruct (Conversation_save_cases false c0 w)
    as [[x ->]|(w1 & c1 & -> & _ & _ & Hv & _)]; [reflexivity|].
  rewrite <- Hv. clear Hv.
  unfold Model_save_Message. cbv [bind now query require modify].
  destruct (negb _); cbn; [|reflexivity].
  destruct (_ && _); cbn; [|reflexivity].
  destruct (bool_decide _); cbn; [|reflexivity].
  unfold post_save_Message, signals_connected,
    regenerate_summary_on_message_save.
  match goal with
  | |- context [if ?created then _ else _] => destruct created
  end; [|reflexivity].
  cbv [bind query]. cbn.
  match goal with
  | |- context [instance_conversation ?w0 ?i] =>
      destruct (instance_conversation w0 i) as [[conversation|]|e];
      try reflexivity
  end.
  match goal with
  | |- context [conversation_messages ?w0 ?c] =>
      destruct (conversation_messages w0 c) as [rows|e]; try reflexivity
  end.
  destruct (_ <=? _); [|reflexivity].
  match goal with
  | |- context [update_conversation_summary _ _ ?c ?w0] =>
      pose proof (update_conversation_summary_versions c w0) as Hkeep;
      destruct (update_conversation_summary _ _ c w0) as [w' [r|e]];
      exact Hkeep
  end.
Qed.

Lemma for_each_versions {A} (l : list A) (body : A → M unit) :
  (∀ a w, versions (body a w).1 = versions w) →
  ∀ w, versions (for_each l body w).1 = versions w.
Proof.
  intros Hbody. induction l as [|a l IH]; intros w; [reflexivity|].
  cbn [for_each]. unfold bind. specialize (Hbody a w).
  destruct (body a w) as [w1 [[]|e]]; [|exact Hbody].
  cbn in Hbody. by rewrite IH.
Qed.

(** The creation of a version writes that version, if it is new, and no
    other. *)
Lemma VersionSerializer_create_versions validated_data conversation w :
  versions_added_to conversation w
    (VersionSerializer_create instance_conversation conversation_messages
       ChatCompletion_create
       (with_conversation_kw conversation validated_data) w).1.
Proof.
  unfold VersionSerializer_create, Version_objects_create.
  cbn [with_conversation_kw vd_conversation vd_messages dict_get].
  unfold bind at 1.
  match goal with
  | |- context [Version_save true ?v w] =>
      destruct (Version_save_shape true v w) as [Hsame|[-> Hfresh]]
  end.
  - match goal with
    | H : (Version_save true ?v w).1 = w |- _ =>
        destruct (Version_save true v w) as [w1 [version|e]]; cbn in H; subst w1
    end; [|by split; eauto].
    unfold bind.
    match goal with
    | |- context [for_each ?l ?body w] =>
        pose proof (for_each_versions l body) as Hkeep
    end.
    match type of Hkeep with
    | ?P → _ => assert P as Hbody
    end.
    { intros a w0. unfold bind, Message_objects_create.
      match goal with
      | |- context [Message_save _ _ _ ?b ?m w0] =>
          pose proof (Message_save_versions b m w0) as Hm;
          destruct (Message_save _ _ _ b m w0) as [w2 [r|e]]; exact Hm
      end. }
    specialize (Hkeep Hbody w).
    match goal with
    | |- context [for_each ?l ?body w] =>
        destruct (for_each l body w) as [w2 [[]|e]]
    end; cbn in *; unfold versions_added_to; rewrite Hkeep; split; eauto.
  - specialize (Hfresh eq_refl). unfold bind.
    match goal with
    | |- context [for_each ?l ?body ?w0] =>
        pose proof (for_each_versions l body) as Hkeep
    end.
    match type of Hkeep with
    | ?P → _ => assert P as Hbody
    end.
    { intros a w0. unfold bind, Message_objects_create.
      match goal with
      | |- context [Message_save _ _ _ ?b ?m w0] =>
          pose proof (Message_save_versions b m w0) as Hm;
          destruct (Message_save _ _ _ b m w0) as [w2 [r|e]]; exact Hm
      end. }
    match goal with
    | |- context [for_each ?l ?body ?w0] =>
        specialize (Hkeep Hbody w0);
        destruct (for_each l body w0) as [w2 [[]|e]]
    end; cbn in *; unfold versions_added_to; rewrite Hkeep; split.
    all: try (intros k v Hv; destruct (decide (k = default (vd_uuid4 validated_data) (vd_id validated_data))) as [->|Hne];
              [congruence|by rewrite lookup_insert_ne]).
    all: intros k v [[<- <-]|[_ Hold]]%lookup_insert_Some; eauto.
Qed.

(** X17: the creation of a conversation with versions leaves every stored
    version as it was, and every version that it adds belongs to the new
    conversation, whatever conversation the payload of the version names. *)
Theorem ConversationSerializer_create_versions validated_data w :
  versions_added_to (cd_uuid4 validated_data) w
    (ConversationSerializer_create instance_conversation
       conversation_messages ChatCompletion_create validated_data w).1.
Proof.
  unfold ConversationSerializer_create, Conversation_objects_create.
  cbv zeta. unfold bind at 1.
  destruct (cd_user validated_data) as [user|];
    [|by apply versions_added_to_refl].
  destruct (Conversation_save_cases true
              (Conversation_init validated_data user) w)
    as [[x ->]|(w1 & c & -> & Hid & _ & Hv & _)];
    [by apply versions_added_to_refl|].
  cbn in Hid. rewrite Hid.
  assert (versions_added_to (cd_uuid4 validated_data) w w1) as Hw1.
  { unfold versions_added_to. rewrite Hv. split; eauto. }
  unfold bind.
  match goal with
  | |- context [for_each ?l ?body w1] =>
      pose proof (for_each_versions_added_to (cd_uuid4 validated_data) w l
                    body) as Hloop
  end.
  match type of Hloop with
  | ?P → _ => assert P as Hbody
  end.
  { intros version_data w2 Hw2.
    destruct (vd_is_valid version_data); [|exact Hw2].
    unfold bind.
    pose proof (VersionSerializer_create_versions version_data
                  (cd_uuid4 validated_data) w2) as Hcreated.
    destruct (VersionSerializer_create _ _ _ _ w2) as [w3 [r|e]];
      by apply (versions_added_to_trans _ w w2). }
  specialize (Hloop Hbody w1 Hw1).
  match goal with
  | |- context [for_each ?l ?body w1] =>
      destruct (for_each l body w1) as [w2 [[]|e]]
  end; exact Hloop.
Qed.

End Versions.

Lemma ConversationSerializer_update_keeps_an_active_version_witness :
  let instance := conversation c31 31 alice (Some v31) in
  let validated_data := mkConversationData None (Some None) None [] fresh in
  let out := ConversationSerializer_update Message_conversation
               Conversation_messages failing instance validated_data
               two_threads in
  let c := Conversation.with_modified_at today instance in
  out = (out.1, Ok c)
  ∧ (cd_active_version validated_data = Some None →
     Conversation.active_version c = Conversation.active_version instance)
  ∧ (is_Some (Conversation.active_version instance) →
     is_Some (Conversation.active_version c)).
Proof.
  intros instance validated_data out c.
  assert (out = (out.1, Ok c)) as Hout by (vm_compute; reflexivity).
  split; [exact Hout|].
  exact (ConversationSerializer_update_keeps_an_active_version
           Message_conversation Conversation_messages failing instance
           validated_data two_threads out.1 c Hout).
Defined.


(** ** The computed fields *)

(** X18: in a world where every reference points at a row, the computed
    fields [active] and [created_at] of a stored version are computed
    without an error. *)
Theorem computed_fields_resolve w k v :
  referential w →
  versions w !! k = Some v →
  is_ok (get_active v w) = true ∧ is_ok (get_created_at v w) = true.
Proof.
  intros (_ & Hversions & Hconversations & _) Hv.
  destruct (Hversions k v Hv) as ([c Hc] & _ & Hroot).
  unfold get_active, get_created_at. rewrite Hc. split.
  - specialize (Hconversations _ c Hc).
    destruct (Conversation.active_version c) as [vid|]; [|reflexivity].
    cbn in Hconversations. apply bool_decide_eq_true in Hconversations.
    by destruct Hconversations as [active ->].
  - destruct (Version.root_message v) as [mid|]; [|reflexivity].
    cbn in Hroot. apply bool_decide_eq_true in Hroot.
    by destruct Hroot as [root_message ->].
Qed.

Lemma computed_fields_resolve_witness :
  referential two_threads
  ∧ versions two_threads !! v31 = Some (Version.mk v31 c31 None None)
  ∧ is_ok (get_active (Version.mk v31 c31 None None) two_threads) = true
  ∧ is_ok (get_created_at (Version.mk v31 c31 None None) two_threads) = true.
Proof.
  split; [apply two_threads_referential|]. split; [reflexivity|].
  apply (computed_fields_resolve two_threads v31);
    [apply two_threads_referential|reflexivity].
Defined.

(** X19: of the versions of a conversation at most one is reported
    active. *)
Theorem get_active_unique w k1 k2 v1 v2 :
  keyed w →
  versions w !! k1 = Some v1 →
  versions w !! k2 = Some v2 →
  Version.conversation v1 = Version.conversation v2 →
  get_active v1 w = Ok true →
  get_active v2 w = Ok true →
  k1 = k2.
Proof.
  intros [_ Hkv] Hv1 Hv2 Hsame. unfold get_active. rewrite Hsame.
  destruct (conversations w !! Version.conversation v2) as [c|];
    [|discriminate].
  destruct (Conversation.active_version c) as [vid|]; [|discriminate].
  destruct (versions w !! vid) as [active|]; [|discriminate].
  intros [= Hactive1%String.eqb_eq] [= Hactive2%String.eqb_eq].
  rewrite <- (Hkv _ _ Hv1), <- (Hkv _ _ Hv2). congruence.
Qed.

Lemma get_active_unique_witness :
  let v := Version.mk v31 c31 None None in
  keyed two_threads
  ∧ versions two_threads !! v31 = Some v
  ∧ Version.conversation v = Version.conversation v
  ∧ get_active v two_threads = Ok true
  ∧ v31 = v31.
Proof.
  split; [apply two_threads_keyed|]. split; [reflexivity|].
  split; [reflexivity|]. split; [reflexivity|].
  apply (get_active_unique two_threads v31 v31
           (Version.mk v31 c31 None None) (Version.mk v31 c31 None None));
    [apply two_threads_keyed|reflexivity|reflexivity|reflexivity|
     reflexivity|reflexivity].
Defined.

(** ** What the delete of one conversation counts *)

Lemma versions_of_one w c k :
  Conversation.id c = k →
  versions_of w {[k]}
  = dom (filter (λ kv, Version.conversation kv.2 = Conversation.id c)
                (versions w)).
Proof.
  intros Hid. unfold versions_of. f_equal. apply map_filter_ext.
  intros i v _. cbn. rewrite Hid. split.
  - intros Hin. apply bool_decide_unpack in Hin.
    by apply elem_of_singleton_1 in Hin.
  - intros ->. apply bool_decide_pack. by apply elem_of_singleton_2.
Qed.

Lemma messages_of_one w c k :
  Conversation.id c = k →
  messages_of w (versions_of w {[k]})
  = dom (filter (λ kv, message_in w c kv.2) (messages w)).
Proof.
  intros Hid. unfold messages_of. f_equal. apply map_filter_ext.
  intros i m _. cbn. unfold message_in. split.
  - intros Hin. apply bool_decide_unpack in Hin.
    apply elem_of_versions_of in Hin as (v & -> & Hin).
    apply elem_of_singleton_1 in Hin. apply Is_true_true, String.eqb_eq.
    congruence.
  - intros Hin. apply bool_decide_pack, elem_of_versions_of.
    destruct (versions w !! Message.version m) as [v|]; [|done].
    exists v. split; [reflexivity|]. apply Is_true_true, String.eqb_eq in Hin.
    apply elem_of_singleton_2. congruence.
Qed.

(** X20: in a world where every active version belongs to its conversation,
    the delete of one conversation reports one row for the conversation, one
    for each of its versions and one for each of its messages, and their sum
    as the number deleted. *)
Theorem delete_of_one_conversation_counts selected w k c :
  consistent w →
  conversations w !! k = Some c →
  matching selected w = {[k]} →
  (Conversation_queryset_delete selected w).2
  = Ok (1 + version_count c w + get_message_count c w,
        mkDeleted 1 (version_count c w) (get_message_count c w)).
Proof.
  intros Hw Hc Hone. pose proof Hw as [[Hkc _] _].
  pose proof (Hkc _ _ Hc) as Hid.
  unfold Conversation_queryset_delete, collect_conversations.
  cbn [snd]. rewrite collect_consistent by exact Hw. rewrite Hone.
  rewrite (messages_of_one w c k Hid), (versions_of_one w c k Hid).
  rewrite size_singleton, !size_dom.
  unfold version_count, get_message_count, deleted_total. cbn.
  reflexivity.
Qed.

Lemma delete_of_one_conversation_counts_witness :
  let selected := λ c, String.eqb (Conversation.id c) c31 in
  let c := conversation c31 31 alice (Some v31) in
  consistent two_threads
  ∧ conversations two_threads !! c31 = Some c
  ∧ matching selected two_threads = {[c31]}
  ∧ (Conversation_queryset_delete selected two_threads).2
    = Ok (1 + version_count c two_threads + get_message_count c two_threads,
          mkDeleted 1 (version_count c two_threads)
                    (get_message_count c two_threads)).
Proof.
  intros selected c.
  assert (matching selected two_threads = {[c31]}) as Hone
    by (vm_compute; reflexivity).
  split; [apply two_threads_consistent|]. split; [reflexivity|].
  split; [exact Hone|].
  exact (delete_of_one_conversation_counts selected two_threads c31 c
           two_threads_consistent eq_refl Hone).
Defined.

(** ** Uploaded files *)

(** X21: [after_last_dot] splits a name at its last dot: when it answers
    [ext], the name is a stem, a dot and [ext], and [ext] has no dot; when it
    answers nothing, the name has no dot. *)
Theorem after_last_dot_spec name :
  match after_last_dot name with
  | Some ext =>
      (∃ stem, name = stem +:+ String "."%char ext)
      ∧ after_last_dot ext = None
  | None => ∀ stem ext, name ≠ stem +:+ String "."%char ext
  end.
Proof.
  induction name as [|c rest IH]; cbn.
  - intros [|c stem] ext; discriminate.
  - destruct (after_last_dot rest) as [ext|] eqn:Hrest.
    + destruct IH as [[stem ->] Hnone].
      split; [by exists (String c stem)|exact Hnone].
    + destruct (Ascii.eqb_spec c "."%char) as [->|Hc].
      * split; [by exists ""|exact Hrest].
      * intros [|c' stem] ext Hname; cbn in Hname;
          injection Hname as Hdot Hrest'; [by apply Hc|].
        by apply (IH stem ext).
Qed.

Section Files.
Variable sha256_hexdigest : string -> string.


(** X23: for a named file the serializer fills in the record itself: the
    owner is the user of the request, the name, the size and the type are
    those of the file, the hash is the digest of its bytes, the status is
    [pending] and the time is that of the upload, whatever the payload says
    of them. *)
Theorem UploadedFileSerializer_create_fills_in user validated_data f w :
  ud_file validated_data = Some f →
  file_name f ≠ "" →
  is_Some (users w !! user) →
  fk_present (conversations w) (ud_conversation validated_data) = true →
  uploaded_files w !! ud_uuid4 validated_data = None →
  file_hash_exists (calculate_file_hash sha256_hexdigest f) w = false →
  let row :=
    {| UploadedFile.id := ud_uuid4 validated_data;
       UploadedFile.user := user;
       UploadedFile.conversation := ud_conversation validated_data;
       UploadedFile.file := f;
       UploadedFile.filename := file_name f;
       UploadedFile.file_size := Z.of_nat (String.length (file_bytes f));
       UploadedFile.file_type := default "" (after_last_dot (file_name f));
       UploadedFile.file_hash := sha256_hexdigest (file_bytes f);
       UploadedFile.status := "pending";
       UploadedFile.uploaded_at := clock w;
       UploadedFile.processed_at := None;
       UploadedFile.error_message := None;
       UploadedFile.mime_type := None;
       UploadedFile.page_count := None;
       UploadedFile.is_indexed := false |} in
  UploadedFileSerializer_create sha256_hexdigest (Some user) validated_data w
  = (set_uploaded_files
       (<[ud_uuid4 validated_data := row]> (uploaded_files w)) w,
     Ok row).
Proof.
  intros Hfile Hname Hu Hfk Hfresh Hfree row. subst row.
  apply String.eqb_neq in Hname.
  unfold UploadedFileSerializer_create. rewrite Hfile.
  unfold file_truthy at 1. rewrite Hname. cbn [negb].
  unfold UploadedFile_objects_create, UploadedFile_save, file_truthy,
    calculate_file_hash.
  cbn -[file_hash_exists after_last_dot String.length bind].
  rewrite Hname. cbn -[file_hash_exists after_last_dot String.length bind].
  cbv [bind now query require modify ret raise].
  cbn -[file_hash_exists after_last_dot String.length].
  rewrite Hfresh.
  rewrite (bool_decide_false (is_Some None)) by (intros [? ?]; discriminate).
  cbn -[file_hash_exists after_last_dot String.length].
  rewrite (file_hash_exists_delete _ _ _ Hfree).
  cbn -[after_last_dot String.length].
  rewrite (bool_decide_true _ Hu). cbn -[after_last_dot String.length].
  rewrite Hfk. reflexivity.
Qed.

End Files.

Lemma UploadedFileSerializer_create_fills_in_witness :
  let validated_data :=
    mkUploadData (Some bob) None (Some report) (Some "invoice.exe")
                 (Some 1) (Some "exe") fresh in
  let row :=
    UploadedFile.mk fresh alice None report "report.pdf" 14 "pdf"
      (toy_digest (file_bytes report)) "pending" today None None None None
      false in
  ud_file validated_data = Some report
  ∧ file_name report ≠ ""
  ∧ is_Some (users two_threads !! alice)
  ∧ fk_present (conversations two_threads) (ud_conversation validated_data)
    = true
  ∧ uploaded_files two_threads !! ud_uuid4 validated_data = None
  ∧ file_hash_exists (calculate_file_hash toy_digest report) two_threads
    = false
  ∧ UploadedFileSerializer_create toy_digest (Some alice) validated_data
      two_threads
    = (set_uploaded_files (<[fresh := row]> (uploaded_files two_threads))
         two_threads,
       Ok row).
Proof.
  intros validated_data row.
  assert (file_hash_exists (calculate_file_hash toy_digest report) two_threads
          = false) as Hfree.
  { apply bool_decide_eq_false. intros Hsome. apply Hsome. reflexivity. }
  split; [reflexivity|]. split; [discriminate|]. split; [by eexists|].
  split; [reflexivity|]. split; [reflexivity|]. split; [exact Hfree|].
  exact (UploadedFileSerializer_create_fills_in toy_digest alice
           validated_data report two_threads eq_refl
           ltac:(discriminate) ltac:(by eexists) eq_refl eq_refl Hfree).
Defined.


(** ** The transcript that is sent to the provider *)

Lemma insert_by_created_at_before m x l :
  Message.created_at x < Message.created_at m →
  insert_by_created_at x (l ++ [m]) = (insert_by_created_at x l ++ [m])%list.
Proof.
  intros Hnewer. induction l as [|y l IH]; cbn.
  - destruct (Z.leb_spec (Message.created_at x) (Message.created_at m));
      [reflexivity|lia].
  - destruct (_ <=? _); [reflexivity|]. by rewrite IH.
Qed.

Lemma insert_by_created_at_newest m l :
  Forall (λ x, Message.created_at x < Message.created_at m) l →
  insert_by_created_at m (order_by_created_at l)
  = (order_by_created_at l ++ [m])%list.
Proof.
  intros Hnewest.
  assert (Forall (λ x, Message.created_at x < Message.created_at m)
                 (order_by_created_at l)) as Hsorted
    by (by rewrite order_by_created_at_perm).
  induction Hsorted as [|x rest Hx _ IH]; [reflexivity|]. cbn.
  destruct (Z.leb_spec (Message.created_at m) (Message.created_at x));
    [lia|]. by rewrite IH.
Qed.

Lemma order_by_created_at_newest m before after :
  Forall (λ x, Message.created_at x < Message.created_at m)
         (before ++ after) →
  order_by_created_at (before ++ m :: after)
  = (order_by_created_at (before ++ after) ++ [m])%list.
Proof.
  induction before as [|x before IH]; intros Hnewest.
  - by apply insert_by_created_at_newest.
  - apply Forall_cons in Hnewest as [Hx Hnewest].
    change (insert_by_created_at x (order_by_created_at (before ++ m :: after))
            = (insert_by_created_at x (order_by_created_at (before ++ after))
               ++ [m])%list).
    rewrite IH by exact Hnewest. by apply insert_by_created_at_before.
Qed.

(** X24: the transcript holds the ten oldest messages: once a conversation
    has ten messages, a message newer than all of them, wherever the
    database lists it, changes nothing of what is sent to the provider. *)
Theorem transcript_ignores_the_newest w m before after :
  Forall (λ x, Message.created_at x < Message.created_at m)
         (before ++ after) →
  (10 ≤ length (before ++ after))%nat →
  transcript w (order_by_created_at (before ++ m :: after))
  = transcript w (order_by_created_at (before ++ after)).
Proof.
  intros Hnewest Hten. rewrite (order_by_created_at_newest _ _ _ Hnewest).
  unfold transcript. rewrite take_app_le; [reflexivity|].
  by rewrite order_by_created_at_perm.
Qed.

Lemma transcript_ignores_the_newest_witness :
  let rows :=
    (λ t, Message.mk m1 "Tell me about tides." (Some 1) t v31)
      <$> [1; 2; 3; 4; 5; 6; 7; 8; 9; 10] in
  let m := Message.mk m2 "Forget the tides." (Some 1) 11 v31 in
  Forall (λ x, Message.created_at x < Message.created_at m) ([] ++ rows)
  ∧ (10 ≤ length ([] ++ rows))%nat
  ∧ transcript two_threads (order_by_created_at ([] ++ m :: rows))
    = transcript two_threads (order_by_created_at ([] ++ rows)).
Proof.
  intros rows m.
  assert (Forall (λ x, Message.created_at x < Message.created_at m)
                 ([] ++ rows)) as Hnewest
    by (repeat constructor).
  split; [exact Hnewest|]. split; [cbn; lia|].
  apply (transcript_ignores_the_newest two_threads m [] rows Hnewest).
  cbn. lia.
Defined.

(** ** The backfill in a world with a summary *)



(** ** What the command reports *)

(** X25: on the answer yes, in a world where every active version belongs
    to its conversation, the command announces the number of conversations
    and then reports, as the number of conversations deleted, that number
    plus the versions and the messages that went with them. *)
Theorem handle_reports_the_cascade conversation_messages options confirm w :
  let queryset :=
    command_queryset (clock w - timedelta_days (opt_days options))
                     (opt_user options) w in
  let count := Z.of_nat (size (matching queryset w)) in
  let vs := versions_of w (matching queryset w) in
  let ms := messages_of w vs in
  consistent w →
  opt_dry_run options = false →
  lower confirm = "yes" →
  matching queryset w ≠ ∅ →
  stdout (handle conversation_messages options confirm w).1
  = (stdout w
     ++ [ "Conversations to delete: " +:+ pretty count +:+ newline;
          "Delete " +:+ pretty count +:+ " conversations? (yes/no): ";
          "✓ Deleted "
          +:+ pretty (count + Z.of_nat (size vs) + Z.of_nat (size ms))
          +:+ " conversations" ])%list.
Proof.
  intros queryset count vs ms Hw Hdry Hyes Hsome.
  unfold handle. cbv [bind now query]. fold queryset.
  rewrite (matching_size_pos _ _ Hsome), Hdry, Hyes, String.eqb_refl.
  cbn [write modify].
  set (w4 := set_stdout _ (set_stdout _ w)).
  assert (consistent w4) as Hw4 by (by apply (consistent_same_tables w)).
  unfold Conversation_queryset_delete, collect_conversations.
  rewrite collect_consistent by exact Hw4.
  assert (∀ x w0, matching queryset (set_stdout x w0) = matching queryset w0)
    as Hmatching by reflexivity.
  assert (∀ x w0 cs, versions_of (set_stdout x w0) cs = versions_of w0 cs)
    as Hversions by reflexivity.
  assert (∀ x w0 cs, messages_of (set_stdout x w0) cs = messages_of w0 cs)
    as Hmessages by reflexivity.
  subst w4. rewrite !Hmatching, !Hversions, !Hmessages, ?Hmatching.
  cbn [write modify fst stdout set_stdout deleted_total deleted_conversations
       deleted_versions deleted_messages].
  rewrite <- !(assoc_L (++)). reflexivity.
Qed.

Lemma handle_reports_the_cascade_witness :
  let options := mkOptions 30 false None in
  let queryset :=
    command_queryset (clock one_thread - timedelta_days (opt_days options))
                     (opt_user options) one_thread in
  consistent one_thread
  ∧ opt_dry_run options = false
  ∧ lower "YES" = "yes"
  ∧ matching queryset one_thread ≠ ∅
  ∧ stdout (handle Conversation_messages options "YES" one_thread).1
    = [ "Conversations to delete: 1" +:+ newline;
        "Delete 1 conversations? (yes/no): ";
        "✓ Deleted 3 conversations" ].
Proof.
  intros options queryset.
  assert (matching queryset one_thread ≠ ∅) as Hsome.
  { intros Hnone. apply (f_equal size) in Hnone. vm_compute in Hnone.
    discriminate. }
  split; [apply one_thread_consistent|]. split; [reflexivity|].
  split; [reflexivity|]. split; [exact Hsome|].
  rewrite (handle_reports_the_cascade Conversation_messages options "YES"
             one_thread one_thread_consistent eq_refl eq_refl Hsome).
  vm_compute. reflexivity.
Defined.

(** ** Saving a message whose version is gone *)

Section Orphans.
Variable instance_conversation :
  World -> Message.t -> result (option Conversation.t).
Variable conversation_messages :
  World -> Conversation.t -> result (list Message.t).
Variable ChatCompletion_create : ChatRequest -> result ChatResponse.

(** X26: [Message.save] reads the version of the message and the
    conversation of that version before it writes: when either row is
    missing it raises [DoesNotExist] and writes nothing. *)
Theorem Message_save_of_an_orphan adding self w :
  (∀ v, versions w !! Message.version self = Some v →
        conversations w !! Version.conversation v = None) →
  ∃ model,
    Message_save instance_conversation conversation_messages
      ChatCompletion_create adding self w
    = (w, Raise (DoesNotExist model)).
Proof.
  intros Horphan. unfold Message_save.
  cbv [bind Version_objects_get Conversation_objects_get query].
  destruct (versions w !! Message.version self) as [v|]; [|by eexists].
  rewrite (Horphan v eq_refl). by eexists.
Qed.

End Orphans.

Lemma Message_save_of_an_orphan_witness :
  let self := Message.mk fresh "Hello" (Some 1) 0 fresh in
  (∀ v, versions two_threads !! Message.version self = Some v →
        conversations two_threads !! Version.conversation v = None)
  ∧ ∃ model,
      Message_save Message_conversation Conversation_messages failing true
        self two_threads
      = (two_threads, Raise (DoesNotExist model)).
Proof.
  intros self.
  assert (∀ v, versions two_threads !! Message.version self = Some v →
               conversations two_threads !! Version.conversation v = None)
    as Horphan.
  { intros v Hv. vm_compute in Hv. discriminate. }
  split; [exact Horphan|].
  exact (Message_save_of_an_orphan Message_conversation Conversation_messages
           failing true self two_threads Horphan).
Defined.

(** ** A summary that was marked stale *)



(** ** Counting the messages of a conversation *)



